(** * Slipstream (Go port): DNS tunnel codec, stream adapters and relay.

    A shallow embedding of
      - pkg/dns/encoding.go   (EncodeSubdomain, DecodeSubdomain, CreateFQDN,
                               ExtractSubdomain, CalculateMaxPayloadSize),
      - pkg/dns/packet.go     (CreateQuery, ParseQueryData, CreateResponse,
                               ParseResponseData),
      - pkg/transport/{client,server}.go (the Read/Write stream adapters),
      - pkg/proxy/proxy.go    (BiDirectionalCopy),
    together with models of the parts of the Go standard library
    (encoding/base32, strings) and of github.com/miekg/dns that this code
    calls. *)

From Stdlib Require Import Strings.String Strings.Ascii Strings.Byte.
From Stdlib Require Import ZArith List Bool Lia Arith.
From Stdlib Require Import btauto.Btauto.
From coqutil Require Import Z.bitblast.
From Equations Require Import Equations.
Import ListNotations.

Local Open Scope Z_scope.

(** ** Bytes and Go strings *)

(** A Go [byte] is an unsigned 8-bit integer.  [u8] reads it as an integer,
    [to_u8] is the conversion [uint8(z)], which wraps modulo 256. *)
Definition u8 (b : byte) : Z := Z.of_N (Byte.to_N b).

Definition to_u8 (z : Z) : byte :=
  match Byte.of_N (Z.to_N (z mod 256)) with
  | Some b => b
  | None => x00
  end.

(** A Go [[]byte] and a Go [string] are both sequences of bytes; the
    conversions [string(b)] and [[]byte(s)] keep the sequence. *)
Definition bytes := list byte.
Definition gostring := list byte.

Definition string_of_bytes (b : bytes) : gostring := b.
Definition bytes_of_string (s : gostring) : bytes := s.

(** String literals of the source, written with Rocq string syntax. *)
Definition lit (s : string) : gostring := list_byte_of_string s.

Definition byte_eqb (a b : byte) : bool := Byte.eqb a b.

Fixpoint bytes_eqb (s t : list byte) : bool :=
  match s, t with
  | [], [] => true
  | a :: s', b :: t' => byte_eqb a b && bytes_eqb s' t'
  | _, _ => false
  end.

(** ** encoding/base32: the standard alphabet without padding

    [Base32Encoding = base32.StdEncoding.WithPadding(base32.NoPadding)]. *)
Module Base32.

Definition encodeStd : list byte := lit "ABCDEFGHIJKLMNOPQRSTUVWXYZ234567".

(** [enc.encode[b&31]] *)
Definition encodeChar (d : Z) : byte :=
  nth (Z.to_nat (Z.land d 31)) encodeStd x00.

Fixpoint index_of (c : byte) (l : list byte) (i : Z) : Z :=
  match l with
  | [] => 255
  | x :: l' => if byte_eqb c x then i else index_of c l' (i + 1)
  end.

(** [enc.decodeMap[c]]: the position of [c] in the alphabet, [0xFF] for a
    byte outside it. *)
Definition decodeMap (c : byte) : Z := index_of c encodeStd 0.

(** The eight 5-bit groups of one 5-byte quantum, as [Encode] unpacks them
    (bytes past the end of the input are left at zero). *)
Definition unpack5 (s0 s1 s2 s3 s4 : Z) : list Z :=
  [ Z.shiftr s0 3;
    Z.lor (Z.land (Z.shiftr s1 6) 31) (Z.land (Z.shiftl s0 2) 31);
    Z.land (Z.shiftr s1 1) 31;
    Z.lor (Z.land (Z.shiftr s2 4) 31) (Z.land (Z.shiftl s1 4) 31);
    Z.lor (Z.shiftr s3 7) (Z.land (Z.shiftl s2 1) 31);
    Z.land (Z.shiftr s3 2) 31;
    Z.lor (Z.shiftr s4 5) (Z.land (Z.shiftl s3 3) 31);
    Z.land s4 31 ].

(** [Encode]: one quantum per five input bytes; a final quantum of 1, 2, 3
    or 4 bytes gives 2, 4, 5 or 7 characters and no padding. *)
Fixpoint encodeDigits (src : list byte) : list Z :=
  match src with
  | [] => []
  | [s0] => firstn 2 (unpack5 (u8 s0) 0 0 0 0)
  | [s0; s1] => firstn 4 (unpack5 (u8 s0) (u8 s1) 0 0 0)
  | [s0; s1; s2] => firstn 5 (unpack5 (u8 s0) (u8 s1) (u8 s2) 0 0)
  | [s0; s1; s2; s3] => firstn 7 (unpack5 (u8 s0) (u8 s1) (u8 s2) (u8 s3) 0)
  | s0 :: s1 :: s2 :: s3 :: s4 :: rest =>
      unpack5 (u8 s0) (u8 s1) (u8 s2) (u8 s3) (u8 s4) ++ encodeDigits rest
  end.

Definition EncodeToString (src : bytes) : gostring :=
  map encodeChar (encodeDigits src).

(** The five bytes of one quantum, as [decode] packs them from eight 5-bit
    groups; every operation is on [uint8]. *)
Definition pack8 (d0 d1 d2 d3 d4 d5 d6 d7 : Z) : list byte :=
  [ to_u8 (Z.lor (Z.shiftl d0 3) (Z.shiftr d1 2));
    to_u8 (Z.lor (Z.lor (Z.shiftl d1 6) (Z.shiftl d2 1)) (Z.shiftr d3 4));
    to_u8 (Z.lor (Z.shiftl d3 4) (Z.shiftr d4 1));
    to_u8 (Z.lor (Z.lor (Z.shiftl d4 7) (Z.shiftl d5 2)) (Z.shiftr d6 3));
    to_u8 (Z.lor (Z.shiftl d6 5) d7) ].

(** Number of bytes a final quantum of [dlen] characters yields: the
    [switch dlen] of [decode] has cases 8, 7, 5, 4 and 2 only. *)
Definition decodedBytes (dlen : nat) : nat :=
  match dlen with
  | 8 => 5 | 7 => 4 | 5 => 3 | 4 => 2 | 2 => 1
  | _ => 0
  end%nat.

Fixpoint decodeDigits (ds : list Z) : list byte :=
  match ds with
  | d0 :: d1 :: d2 :: d3 :: d4 :: d5 :: d6 :: d7 :: rest =>
      pack8 d0 d1 d2 d3 d4 d5 d6 d7 ++ decodeDigits rest
  | _ =>
      firstn (decodedBytes (length ds))
        (pack8 (nth 0 ds 0) (nth 1 ds 0) (nth 2 ds 0) (nth 3 ds 0)
               (nth 4 ds 0) (nth 5 ds 0) (nth 6 ds 0) (nth 7 ds 0))
  end.

(** [CorruptInputError(off)]: the offset of the first byte outside the
    alphabet. *)
Fixpoint firstCorrupt (src : list byte) (off : Z) : option Z :=
  match src with
  | [] => None
  | c :: src' =>
      if decodeMap c =? 255 then Some off else firstCorrupt src' (off + 1)
  end.

(** [stripNewlines]: carriage returns and line feeds are skipped. *)
Definition stripNewlines (src : list byte) : list byte :=
  filter (fun c => negb (byte_eqb c x0d || byte_eqb c x0a)) src.

(** [DecodeString]: [inl off] is [CorruptInputError(off)]. *)
Definition DecodeString (s : gostring) : Z + bytes :=
  let src := stripNewlines s in
  match firstCorrupt src 0 with
  | Some off => inl off
  | None => inr (decodeDigits (map decodeMap src))
  end.

End Base32.

(** ** The strings package, on byte sequences

    [ToLower] and [ToUpper] are modelled on ASCII letters, which is what Go
    does on a string of ASCII bytes (every string the encoder produces);
    other bytes are kept. *)
Module Strings.

Definition isUpper (c : byte) : bool := (65 <=? u8 c) && (u8 c <=? 90).
Definition isLower (c : byte) : bool := (97 <=? u8 c) && (u8 c <=? 122).

Definition ToLower (s : gostring) : gostring :=
  map (fun c => if isUpper c then to_u8 (u8 c + 32) else c) s.

Definition ToUpper (s : gostring) : gostring :=
  map (fun c => if isLower c then to_u8 (u8 c - 32) else c) s.

(** [ReplaceAll(s, old, new)] for a one-byte [old]. *)
Definition ReplaceAll (s : gostring) (old : byte) (new : gostring) : gostring :=
  flat_map (fun c => if byte_eqb c old then new else [c]) s.

Fixpoint Join (elems : list gostring) (sep : gostring) : gostring :=
  match elems with
  | [] => []
  | [e] => e
  | e :: rest => e ++ sep ++ Join rest sep
  end.

Definition HasSuffix (s suffix : gostring) : bool :=
  (length suffix <=? length s)%nat
  && bytes_eqb (skipn (length s - length suffix) s) suffix.

Definition TrimSuffix (s suffix : gostring) : gostring :=
  if HasSuffix s suffix then firstn (length s - length suffix) s else s.

(** [Split(s, sep)] for a one-byte [sep]: the pieces between separators;
    a string without separator is its own single piece. *)
Fixpoint Split (s : gostring) (sep : byte) : list gostring :=
  match s with
  | [] => [[]]
  | c :: s' =>
      if byte_eqb c sep then [] :: Split s' sep
      else match Split s' sep with
           | piece :: pieces => (c :: piece) :: pieces
           | [] => [[c]]
           end
  end.

End Strings.

(** ** Errors and results *)

(** The [error] values the code builds or passes on.  [Errorf] keeps the
    format string and the arguments of a [fmt.Errorf] call. *)
Inductive error : Type :=
| EOF
| CorruptInputError (off : Z)
| TransportError (what : string)
| UnpackError (what : string)
| PackError (what : string)
| Errorf (format : string) (args : list fmtArg)
with fmtArg : Type :=
| ArgInt (n : Z)
| ArgStr (s : gostring)
| ArgErr (e : error).

(** A Go result pair [(v, err)]: [Ok v] is [(v, nil)]. *)
Inductive result (A : Type) : Type :=
| Ok (v : A)
| Err (e : error).
Arguments Ok {A} v.
Arguments Err {A} e.

(** ** pkg/dns/encoding.go *)

Definition MaxLabelLength : nat := 63.
Definition MaxDomainLength : Z := 253.

Definition dot : byte := "."%byte.

(** The label loop of [EncodeSubdomain]:
    [for len(encoded) > 0 { ...; labels = append(labels, encoded[:labelLen]);
    encoded = encoded[labelLen:] }]. *)
Equations? splitLabels (encoded : gostring) : list gostring
  by wf (length encoded) lt :=
splitLabels [] := [];
splitLabels (c :: s) :=
  let labelLen :=
    if (length (c :: s) <? MaxLabelLength)%nat then length (c :: s)
    else MaxLabelLength in
  firstn labelLen (c :: s) :: splitLabels (skipn labelLen (c :: s)).
Proof.
  rewrite length_skipn. subst labelLen. unfold MaxLabelLength. simpl length.
  destruct (Nat.ltb_spec (S (length s)) 63); lia.
Defined.

Definition EncodeSubdomain (data : bytes) : gostring :=
  match data with
  | [] => []
  | _ =>
      let encoded := Strings.ToLower (Base32.EncodeToString data) in
      Strings.Join (splitLabels encoded) [dot]
  end.

(** The labels of a subdomain: the pieces between its dots; the empty
    subdomain has no label. *)
Definition labels (subdomain : gostring) : list gostring :=
  match subdomain with
  | [] => []
  | _ => Strings.Split subdomain dot
  end.

Definition DecodeSubdomain (subdomain : gostring) : result bytes :=
  let encoded := Strings.ReplaceAll subdomain dot [] in
  match Base32.DecodeString (Strings.ToUpper encoded) with
  | inl off =>
      Err (Errorf "failed to decode base32: %w" [ArgErr (CorruptInputError off)])
  | inr decoded => Ok decoded
  end.

Definition CreateFQDN (subdomain domain : gostring) : gostring :=
  match subdomain with
  | [] => domain ++ [dot]
  | _ => subdomain ++ [dot] ++ domain ++ [dot]
  end.

Definition ExtractSubdomain (fqdn domain : gostring) : result gostring :=
  let fqdn := Strings.TrimSuffix fqdn [dot] in
  let domain := Strings.TrimSuffix domain [dot] in
  if negb (Strings.HasSuffix fqdn ([dot] ++ domain)) && negb (bytes_eqb fqdn domain)
  then Err (Errorf "FQDN %s does not match domain %s" [ArgStr fqdn; ArgStr domain])
  else if bytes_eqb fqdn domain then Ok []
  else Ok (Strings.TrimSuffix fqdn ([dot] ++ domain)).

(** A domain name written without the root dot at its end, as the tunnel
    domain is configured ([CreateFQDN] appends the root dot itself). *)
Definition unrooted (domain : gostring) : bool :=
  negb (Strings.HasSuffix domain [dot]).

(** Go's [int] is 64 bits wide; arithmetic wraps, division truncates. *)
Definition wrap64 (z : Z) : Z := (z + 2 ^ 63) mod 2 ^ 64 - 2 ^ 63.

Definition CalculateMaxPayloadSize (domainLen : Z) : Z :=
  let availableLen := wrap64 (wrap64 (MaxDomainLength - domainLen) - 2) in
  let maxBase32Chars := availableLen in
  let maxPayloadBytes := Z.quot (wrap64 (maxBase32Chars * 5)) 8 in
  maxPayloadBytes.

(** The product [maxBase32Chars * 5] stays inside [int]. *)
Definition fitsInt (domainLen : Z) : Prop :=
  - 2 ^ 63 <= (MaxDomainLength - domainLen - 2) * 5 < 2 ^ 63.

(** ** github.com/miekg/dns: the message type and the methods the code calls *)
Module Dns.

Definition TypeTXT : Z := 16.
Definition TypeOPT : Z := 41.
Definition ClassINET : Z := 1.
Definition OpcodeQuery : Z := 0.

Definition RcodeSuccess : Z := 0.
Definition RcodeFormatError : Z := 1.
Definition RcodeServerFailure : Z := 2.
Definition RcodeNameError : Z := 3.

Record Question : Type := mkQuestion {
  Q_Name : gostring;
  Qtype : Z;
  Qclass : Z
}.

Record RR_Header : Type := mkHeader {
  Name : gostring;
  Rrtype : Z;
  Class : Z;
  Ttl : Z;
  Rdlength : Z
}.

(** The resource records: [*dns.TXT], [*dns.OPT], and any other type. *)
Inductive RR : Type :=
| TXT (Hdr : RR_Header) (Txt : list gostring)
| OPT (Hdr : RR_Header) (Option : list (Z * bytes))
| OtherRR (Hdr : RR_Header) (rdata : bytes).

Definition Header (rr : RR) : RR_Header :=
  match rr with
  | TXT h _ => h
  | OPT h _ => h
  | OtherRR h _ => h
  end.

Record Msg : Type := mkMsg {
  Id : Z;
  Response : bool;
  Opcode : Z;
  Authoritative : bool;
  Truncated : bool;
  RecursionDesired : bool;
  RecursionAvailable : bool;
  Zero : bool;
  AuthenticatedData : bool;
  CheckingDisabled : bool;
  Rcode : Z;
  Compress : bool;
  Questions : list Question;
  Answer : list RR;
  Ns : list RR;
  Extra : list RR
}.

(** [new(dns.Msg)] *)
Definition newMsg : Msg :=
  mkMsg 0 false 0 false false false false false false false 0 false [] [] [] [].

Definition with_Rcode (m : Msg) (rcode : Z) : Msg :=
  mkMsg (Id m) (Response m) (Opcode m) (Authoritative m) (Truncated m)
    (RecursionDesired m) (RecursionAvailable m) (Zero m) (AuthenticatedData m)
    (CheckingDisabled m) rcode (Compress m) (Questions m) (Answer m) (Ns m)
    (Extra m).

Definition with_RecursionDesired (m : Msg) (rd : bool) : Msg :=
  mkMsg (Id m) (Response m) (Opcode m) (Authoritative m) (Truncated m)
    rd (RecursionAvailable m) (Zero m) (AuthenticatedData m)
    (CheckingDisabled m) (Rcode m) (Compress m) (Questions m) (Answer m) (Ns m)
    (Extra m).

Definition with_Answer (m : Msg) (answer : list RR) : Msg :=
  mkMsg (Id m) (Response m) (Opcode m) (Authoritative m) (Truncated m)
    (RecursionDesired m) (RecursionAvailable m) (Zero m) (AuthenticatedData m)
    (CheckingDisabled m) (Rcode m) (Compress m) (Questions m) answer (Ns m)
    (Extra m).

Definition with_Extra (m : Msg) (extra : list RR) : Msg :=
  mkMsg (Id m) (Response m) (Opcode m) (Authoritative m) (Truncated m)
    (RecursionDesired m) (RecursionAvailable m) (Zero m) (AuthenticatedData m)
    (CheckingDisabled m) (Rcode m) (Compress m) (Questions m) (Answer m) (Ns m)
    extra.

(** [msg.SetQuestion(z, t)]; [id] is the value [dns.Id()] draws. *)
Definition SetQuestion (m : Msg) (id : Z) (z : gostring) (t : Z) : Msg :=
  mkMsg id (Response m) (Opcode m) (Authoritative m) (Truncated m)
    true (RecursionAvailable m) (Zero m) (AuthenticatedData m)
    (CheckingDisabled m) (Rcode m) (Compress m)
    [mkQuestion z t ClassINET] (Answer m) (Ns m) (Extra m).

(** [msg.SetReply(request)] *)
Definition SetReply (m request : Msg) : Msg :=
  let isQuery := Opcode request =? OpcodeQuery in
  mkMsg (Id request) true (Opcode request) (Authoritative m) (Truncated m)
    (if isQuery then RecursionDesired request else RecursionDesired m)
    (RecursionAvailable m) (Zero m) (AuthenticatedData m)
    (if isQuery then CheckingDisabled request else CheckingDisabled m)
    RcodeSuccess (Compress m)
    (match Questions request with
     | q :: _ => [q]
     | [] => Questions m
     end)
    (Answer m) (Ns m) (Extra m).

(** [msg.IsEdns0()]: the last record of type OPT in the additional
    section, if there is one. *)
Definition IsEdns0 (m : Msg) : option RR :=
  find (fun rr => Rrtype (Header rr) =? TypeOPT) (rev (Extra m)).

(** [opt.SetUDPSize(size)] stores the size in the class field. *)
Definition SetUDPSize (h : RR_Header) (size : Z) : RR_Header :=
  mkHeader (Name h) (Rrtype h) size (Ttl h) (Rdlength h).

(** The table [dns.RcodeToString]; a code that is not a key reads as the
    empty string. *)
Definition RcodeTable : list (Z * string) :=
  [ (0, "NOERROR"); (1, "FORMERR"); (2, "SERVFAIL"); (3, "NXDOMAIN");
    (4, "NOTIMP"); (5, "REFUSED"); (6, "YXDOMAIN"); (7, "YXRRSET");
    (8, "NXRRSET"); (9, "NOTAUTH"); (10, "NOTZONE"); (11, "DSOTYPENI");
    (16, "BADSIG"); (17, "BADKEY"); (18, "BADTIME"); (19, "BADMODE");
    (20, "BADNAME"); (21, "BADALG"); (22, "BADTRUNC"); (23, "BADCOOKIE") ]%string.

Definition RcodeToString (rcode : Z) : gostring :=
  match find (fun kv => fst kv =? rcode) RcodeTable with
  | Some kv => lit (snd kv)
  | None => []
  end.

End Dns.

(** ** pkg/dns/packet.go *)

Definition DefaultTTL : Z := 60.
Definition EDNSBufferSize : Z := 1232.

Definition CreateQuery (id : Z) (data : bytes) (domain : gostring)
  : result Dns.Msg :=
  let msg := Dns.newMsg in
  let msg := Dns.SetQuestion msg id (CreateFQDN (EncodeSubdomain data) domain)
               Dns.TypeTXT in
  let msg := Dns.with_RecursionDesired msg true in
  let opt :=
    Dns.OPT
      (Dns.SetUDPSize (Dns.mkHeader (lit ".") Dns.TypeOPT 0 0 0) EDNSBufferSize)
      [] in
  let msg := Dns.with_Extra msg (Dns.Extra msg ++ [opt]) in
  Ok msg.

Definition ParseQueryData (msg : Dns.Msg) (domain : gostring) : result bytes :=
  match Dns.Questions msg with
  | [question] =>
      if negb (Dns.Qtype question =? Dns.TypeTXT) then
        Err (Errorf "expected TXT query, got type %d"
               [ArgInt (Dns.Qtype question)])
      else
        match ExtractSubdomain (Dns.Q_Name question) domain with
        | Err err => Err (Errorf "failed to extract subdomain: %w" [ArgErr err])
        | Ok subdomain =>
            match subdomain with
            | [] => Ok []
            | _ =>
                match DecodeSubdomain subdomain with
                | Err err =>
                    Err (Errorf "failed to decode subdomain: %w" [ArgErr err])
                | Ok data => Ok data
                end
            end
        end
  | qs =>
      Err (Errorf "expected exactly 1 question, got %d"
             [ArgInt (Z.of_nat (length qs))])
  end.

(** The chunk loop of [CreateResponse]:
    [for len(data) > 0 { ...; txtStrings = append(txtStrings,
    string(data[:chunkSize])); data = data[chunkSize:] }]. *)
Equations? splitTxt (data : bytes) : list gostring
  by wf (length data) lt :=
splitTxt [] := [];
splitTxt (c :: d) :=
  let chunkSize :=
    if (length (c :: d) <? 255)%nat then length (c :: d) else 255%nat in
  string_of_bytes (firstn chunkSize (c :: d))
    :: splitTxt (skipn chunkSize (c :: d)).
Proof.
  rewrite length_skipn. subst chunkSize. simpl length.
  destruct (Nat.ltb_spec (S (length d)) 255); lia.
Defined.

(** [CreateResponse] indexes [query.Question[0]]; [None] is the run-time
    panic (index out of range) of a query without a question. *)
Definition CreateResponse (query : Dns.Msg) (data : bytes) : option Dns.Msg :=
  let msg := Dns.newMsg in
  let msg := Dns.SetReply msg query in
  match data with
  | [] => Some (Dns.with_Rcode msg Dns.RcodeNameError)
  | _ =>
      let txtStrings := splitTxt data in
      match Dns.Questions query with
      | [] => None
      | question0 :: _ =>
          let txt :=
            Dns.TXT
              (Dns.mkHeader (Dns.Q_Name question0) Dns.TypeTXT Dns.ClassINET
                 DefaultTTL 0)
              txtStrings in
          let msg := Dns.with_Answer msg (Dns.Answer msg ++ [txt]) in
          let msg :=
            match Dns.IsEdns0 query with
            | Some opt => Dns.with_Extra msg (Dns.Extra msg ++ [opt])
            | None => msg
            end in
          Some msg
      end
  end.

(** The answer loop of [ParseResponseData]: the strings of every TXT
    record, in record order then string order. *)
Definition txtData (answers : list Dns.RR) : bytes :=
  flat_map
    (fun answer =>
       match answer with
       | Dns.TXT _ txt => flat_map bytes_of_string txt
       | _ => []
       end)
    answers.

Definition ParseResponseData (msg : Dns.Msg) : result bytes :=
  if Dns.Rcode msg =? Dns.RcodeNameError then Ok []
  else if negb (Dns.Rcode msg =? Dns.RcodeSuccess) then
    Err (Errorf "DNS response error: %s"
           [ArgStr (Dns.RcodeToString (Dns.Rcode msg))])
  else Ok (txtData (Dns.Answer msg)).

Definition CreateErrorResponse (query : Dns.Msg) (rcode : Z) : Dns.Msg :=
  Dns.with_Rcode (Dns.SetReply Dns.newMsg query) rcode.

(** ** pkg/transport: the stream adapters *)

(** The substrate [quic.Stream], as the adapters use it.  [stream_Read s cap]
    is [s.Read(buf)] for a buffer of [cap] bytes: it gives the bytes
    [buf[:n]] that were read (at most [cap] of them) and the error, and the
    stream afterwards. *)
Class QuicStream (S : Type) : Type := {
  stream_Read : S -> nat -> (bytes * option error) * S;
  stream_Write : S -> bytes -> (nat * option error) * S;
  stream_Close : S -> option error * S
}.

(** The built-in [copy(dst, src)]: the buffer afterwards and the number of
    bytes copied. *)
Definition copy (dst src : bytes) : bytes * nat :=
  let n := Nat.min (length dst) (length src) in
  (firstn n src ++ skipn n dst, n).

(** What a [Read(p)] or [Write(p)] call hands back: the caller's buffer
    afterwards, the count and the error. *)
Record ioResult : Type := mkIO {
  io_buf : bytes;
  io_n : nat;
  io_err : option error
}.

Section Transport.
Context {S : Type} {quic : QuicStream S}.

(** [new(dns.Msg).Unpack(wire)] and [msg.Pack()] of miekg/dns. *)
Variable Unpack : bytes -> result Dns.Msg.
Variable Pack : Dns.Msg -> result bytes.

Record dnsStream : Type := mkDnsStream {
  stream : S;
  domain : gostring
}.

Record serverDNSStream : Type := mkServerDNSStream {
  server_stream : S;
  server_domain : gostring
}.

Definition dnsStream_Read (ds : dnsStream) (p : bytes)
  : ioResult * dnsStream :=
  let '((buf, err), stream') := stream_Read (stream ds) 4096 in
  let ds' := mkDnsStream stream' (domain ds) in
  match err with
  | Some err => (mkIO p 0 (Some err), ds')
  | None =>
      match Unpack buf with
      | Err err =>
          (mkIO p 0
             (Some (Errorf "failed to parse DNS response: %w" [ArgErr err])),
           ds')
      | Ok msg =>
          match ParseResponseData msg with
          | Err err =>
              (mkIO p 0
                 (Some (Errorf "failed to extract data from DNS response: %w"
                          [ArgErr err])),
               ds')
          | Ok data =>
              let '(p', copied) := copy p data in
              (mkIO p' copied None, ds')
          end
      end
  end.

Definition dnsStream_Write (id : Z) (ds : dnsStream) (p : bytes)
  : ioResult * dnsStream :=
  match CreateQuery id p (domain ds) with
  | Err err =>
      (mkIO p 0 (Some (Errorf "failed to create DNS query: %w" [ArgErr err])),
       ds)
  | Ok msg =>
      match Pack msg with
      | Err err =>
          (mkIO p 0
             (Some (Errorf "failed to pack DNS query: %w" [ArgErr err])),
           ds)
      | Ok packed =>
          let '((_, err), stream') := stream_Write (stream ds) packed in
          let ds' := mkDnsStream stream' (domain ds) in
          match err with
          | Some err => (mkIO p 0 (Some err), ds')
          | None => (mkIO p (length p) None, ds')
          end
      end
  end.

Definition dnsStream_Close (ds : dnsStream) : option error * dnsStream :=
  let '(err, stream') := stream_Close (stream ds) in
  (err, mkDnsStream stream' (domain ds)).

Definition serverDNSStream_Read (ds : serverDNSStream) (p : bytes)
  : ioResult * serverDNSStream :=
  let '((buf, err), stream') := stream_Read (server_stream ds) 4096 in
  let ds' := mkServerDNSStream stream' (server_domain ds) in
  match err with
  | Some err => (mkIO p 0 (Some err), ds')
  | None =>
      match Unpack buf with
      | Err err =>
          (mkIO p 0
             (Some (Errorf "failed to parse DNS query: %w" [ArgErr err])),
           ds')
      | Ok msg =>
          match ParseQueryData msg (server_domain ds) with
          | Err err =>
              (mkIO p 0
                 (Some (Errorf "failed to extract data from DNS query: %w"
                          [ArgErr err])),
               ds')
          | Ok data =>
              let '(p', copied) := copy p data in
              (mkIO p' copied None, ds')
          end
      end
  end.

(** The dummy query [serverDNSStream.Write] answers. *)
Definition dummyQuery (id : Z) (domain : gostring) : Dns.Msg :=
  Dns.SetQuestion Dns.newMsg id (CreateFQDN [] domain) Dns.TypeTXT.

(** [None] is a panic inside [CreateResponse]. *)
Definition serverDNSStream_Write (id : Z) (ds : serverDNSStream) (p : bytes)
  : option (ioResult * serverDNSStream) :=
  match CreateResponse (dummyQuery id (server_domain ds)) p with
  | None => None
  | Some msg =>
      match Pack msg with
      | Err err =>
          Some (mkIO p 0
                  (Some (Errorf "failed to pack DNS response: %w"
                           [ArgErr err])),
                ds)
      | Ok packed =>
          let '((_, err), stream') := stream_Write (server_stream ds) packed in
          let ds' := mkServerDNSStream stream' (server_domain ds) in
          match err with
          | Some err => Some (mkIO p 0 (Some err), ds')
          | None => Some (mkIO p (length p) None, ds')
          end
      end
  end.

Definition serverDNSStream_Close (ds : serverDNSStream)
  : option error * serverDNSStream :=
  let '(err, stream') := stream_Close (server_stream ds) in
  (err, mkServerDNSStream stream' (server_domain ds)).

End Transport.

(** *** A scripted substrate

    A stream whose reads are given in advance: each entry of [pending] is
    what the next [Read] delivers (an entry longer than the buffer is
    delivered in part and the rest stays first in line); a stream with
    nothing pending is at end of input. *)
Record ScriptStream : Type := mkScript {
  pending : list (bytes * option error);
  written : list bytes
}.

Definition script_Read (s : ScriptStream) (cap : nat)
  : (bytes * option error) * ScriptStream :=
  match pending s with
  | [] => (([], Some EOF), s)
  | (b, e) :: rest =>
      if (length b <=? cap)%nat then ((b, e), mkScript rest (written s))
      else ((firstn cap b, None),
            mkScript ((skipn cap b, e) :: rest) (written s))
  end.

Definition script_Write (s : ScriptStream) (b : bytes)
  : (nat * option error) * ScriptStream :=
  ((length b, None), mkScript (pending s) (written s ++ [b])).

Definition script_Close (s : ScriptStream) : option error * ScriptStream :=
  (None, s).

#[export] Instance ScriptQuic : QuicStream ScriptStream := {
  stream_Read := script_Read;
  stream_Write := script_Write;
  stream_Close := script_Close
}.

(** *** The wire format, for the messages of the tunnel

    [Pack] and [Unpack] of miekg/dns on uncompressed messages whose names
    and TXT strings need no escape in presentation format.  Anything else
    (compression pointers, characters that are escaped, extended response
    codes on packing) is outside this instance and reported as an error. *)
Module Wire.

Definition bind {A B : Type} (r : result A) (k : A -> result B) : result B :=
  match r with
  | Ok v => k v
  | Err e => Err e
  end.

Notation "' p <- r ;; k" := (bind r (fun p => k))
  (at level 61, p pattern, r at next level, right associativity).

Fixpoint mapResult {A B : Type} (f : A -> result B) (l : list A)
  : result (list B) :=
  match l with
  | [] => Ok []
  | x :: l' =>
      ' y <- f x ;;
      ' ys <- mapResult f l' ;;
      Ok (y :: ys)
  end.

Definition packUint16 (v : Z) : bytes := [to_u8 (Z.shiftr v 8); to_u8 v].

Definition packUint32 (v : Z) : bytes :=
  packUint16 (Z.shiftr v 16) ++ packUint16 v.

Definition unpackUint16 (msg : bytes) : result (Z * bytes) :=
  match msg with
  | hi :: lo :: rest => Ok (Z.lor (Z.shiftl (u8 hi) 8) (u8 lo), rest)
  | _ => Err (UnpackError "overflow unpacking uint16")
  end.

Definition unpackUint32 (msg : bytes) : result (Z * bytes) :=
  match msg with
  | b3 :: b2 :: b1 :: b0 :: rest =>
      Ok (Z.lor (Z.shiftl (u8 b3) 24)
            (Z.lor (Z.shiftl (u8 b2) 16)
               (Z.lor (Z.shiftl (u8 b1) 8) (u8 b0))),
          rest)
  | _ => Err (UnpackError "overflow unpacking uint32")
  end.

(** Characters of a TXT string that are written as they are: printable and
    neither a quote nor a backslash. *)
Definition plainTxtChar (c : byte) : bool :=
  (32 <=? u8 c) && (u8 c <=? 126)
  && negb (byte_eqb c x22) && negb (byte_eqb c x5c).

(** Characters of a label that are written as they are. *)
Definition plainNameChar (c : byte) : bool :=
  (33 <=? u8 c) && (u8 c <=? 126)
  && negb (existsb (byte_eqb c) [x2e; x27; x40; x3b; x28; x29; x22; x5c]).

Definition packLabel (l : gostring) : result bytes :=
  if negb (forallb plainNameChar l) then
    Err (PackError "escaped label not modelled")
  else if ((1 <=? length l) && (length l <=? 63))%nat then
    Ok (to_u8 (Z.of_nat (length l)) :: l)
  else Err (PackError "bad rdata").

Definition packDomainName (name : gostring) : result bytes :=
  if bytes_eqb name [dot] then Ok [x00]
  else if negb (Strings.HasSuffix name [dot]) then
    Err (PackError "domain must be fully qualified")
  else
    ' ls <- mapResult packLabel
              (Strings.Split (Strings.TrimSuffix name [dot]) dot) ;;
    Ok (concat ls ++ [x00]).

Definition packTxtString (t : gostring) : result bytes :=
  if negb (forallb plainTxtChar t) then
    Err (PackError "escaped string not modelled")
  else if (length t <=? 255)%nat then Ok (to_u8 (Z.of_nat (length t)) :: t)
  else Err (PackError "string exceeded 255 bytes in txt").

Definition packRdata (rr : Dns.RR) : result bytes :=
  match rr with
  | Dns.TXT _ [] => Ok [x00]
  | Dns.TXT _ txt =>
      ' ss <- mapResult packTxtString txt ;;
      Ok (concat ss)
  | Dns.OPT _ options =>
      Ok (flat_map
            (fun o => packUint16 (fst o)
                        ++ packUint16 (Z.of_nat (length (snd o))) ++ snd o)
            options)
  | Dns.OtherRR _ rdata => Ok rdata
  end.

Definition packRR (rr : Dns.RR) : result bytes :=
  let h := Dns.Header rr in
  ' name <- packDomainName (Dns.Name h) ;;
  ' rdata <- packRdata rr ;;
  Ok (name ++ packUint16 (Dns.Rrtype h) ++ packUint16 (Dns.Class h)
        ++ packUint32 (Dns.Ttl h)
        ++ packUint16 (Z.of_nat (length rdata)) ++ rdata).

Definition packQuestion (q : Dns.Question) : result bytes :=
  ' name <- packDomainName (Dns.Q_Name q) ;;
  Ok (name ++ packUint16 (Dns.Qtype q) ++ packUint16 (Dns.Qclass q)).

Definition flag (b : bool) (bit : Z) : Z := if b then Z.shiftl 1 bit else 0.

Definition headerBits (m : Dns.Msg) : Z :=
  fold_right Z.lor 0
    [ Z.shiftl (Z.land (Dns.Opcode m) 15) 11; Z.land (Dns.Rcode m) 15;
      flag (Dns.Response m) 15; flag (Dns.Authoritative m) 10;
      flag (Dns.Truncated m) 9; flag (Dns.RecursionDesired m) 8;
      flag (Dns.RecursionAvailable m) 7; flag (Dns.Zero m) 6;
      flag (Dns.AuthenticatedData m) 5; flag (Dns.CheckingDisabled m) 4 ].

Definition Pack (m : Dns.Msg) : result bytes :=
  if 15 <? Dns.Rcode m then Err (PackError "extended rcode not modelled")
  else
    ' qs <- mapResult packQuestion (Dns.Questions m) ;;
    ' an <- mapResult packRR (Dns.Answer m) ;;
    ' ns <- mapResult packRR (Dns.Ns m) ;;
    ' ar <- mapResult packRR (Dns.Extra m) ;;
    Ok (packUint16 (Dns.Id m) ++ packUint16 (headerBits m)
          ++ packUint16 (Z.of_nat (length qs))
          ++ packUint16 (Z.of_nat (length an))
          ++ packUint16 (Z.of_nat (length ns))
          ++ packUint16 (Z.of_nat (length ar))
          ++ concat qs ++ concat an ++ concat ns ++ concat ar).

(** Names are read label by label; [fuel] bounds the number of labels by
    the number of bytes left. *)
Fixpoint unpackLabels (fuel : nat) (msg : bytes) : result (gostring * bytes) :=
  match fuel, msg with
  | O, _ | _, [] => Err (UnpackError "buffer size too small")
  | Datatypes.S fuel', c :: rest =>
      let n := Z.to_nat (u8 c) in
      if (n =? 0)%nat then Ok ([], rest)
      else if (63 <? n)%nat then
        Err (UnpackError "compression pointer not modelled")
      else if (length rest <? n)%nat then
        Err (UnpackError "buffer size too small")
      else if negb (forallb plainNameChar (firstn n rest)) then
        Err (UnpackError "escaped label not modelled")
      else
        ' (name, rest') <- unpackLabels fuel' (skipn n rest) ;;
        Ok (firstn n rest ++ [dot] ++ name, rest')
  end.

Definition unpackDomainName (msg : bytes) : result (gostring * bytes) :=
  ' (name, rest) <- unpackLabels (length msg) msg ;;
  Ok (match name with [] => [dot] | _ => name end, rest).

Fixpoint unpackTxt (fuel : nat) (rdata : bytes) : result (list gostring) :=
  match fuel, rdata with
  | _, [] => Ok []
  | O, _ => Err (UnpackError "overflow unpacking txt")
  | Datatypes.S fuel', c :: rest =>
      let n := Z.to_nat (u8 c) in
      if (length rest <? n)%nat then
        Err (UnpackError "overflow unpacking txt")
      else if negb (forallb plainTxtChar (firstn n rest)) then
        Err (UnpackError "escaped string not modelled")
      else
        ' ss <- unpackTxt fuel' (skipn n rest) ;;
        Ok (firstn n rest :: ss)
  end.

Fixpoint unpackOptions (fuel : nat) (rdata : bytes)
  : result (list (Z * bytes)) :=
  match fuel, rdata with
  | _, [] => Ok []
  | O, _ => Err (UnpackError "overflow unpacking opt")
  | Datatypes.S fuel', _ =>
      ' (code, rest) <- unpackUint16 rdata ;;
      ' (len, rest) <- unpackUint16 rest ;;
      if (length rest <? Z.to_nat len)%nat then
        Err (UnpackError "overflow unpacking opt")
      else
        ' os <- unpackOptions fuel' (skipn (Z.to_nat len) rest) ;;
        Ok ((code, firstn (Z.to_nat len) rest) :: os)
  end.

Definition unpackQuestion (msg : bytes) : result (Dns.Question * bytes) :=
  ' (name, rest) <- unpackDomainName msg ;;
  ' (qtype, rest) <- unpackUint16 rest ;;
  ' (qclass, rest) <- unpackUint16 rest ;;
  Ok (Dns.mkQuestion name qtype qclass, rest).

Definition unpackRR (msg : bytes) : result (Dns.RR * bytes) :=
  ' (name, rest) <- unpackDomainName msg ;;
  ' (rrtype, rest) <- unpackUint16 rest ;;
  ' (class, rest) <- unpackUint16 rest ;;
  ' (ttl, rest) <- unpackUint32 rest ;;
  ' (rdlength, rest) <- unpackUint16 rest ;;
  let n := Z.to_nat rdlength in
  if (length rest <? n)%nat then Err (UnpackError "overflowing header size")
  else
    let hdr := Dns.mkHeader name rrtype class ttl rdlength in
    let rdata := firstn n rest in
    if rrtype =? Dns.TypeTXT then
      ' txt <- unpackTxt n rdata ;;
      Ok (Dns.TXT hdr txt, skipn n rest)
    else if rrtype =? Dns.TypeOPT then
      ' options <- unpackOptions n rdata ;;
      Ok (Dns.OPT hdr options, skipn n rest)
    else Ok (Dns.OtherRR hdr rdata, skipn n rest).

Fixpoint unpackMany {A : Type} (f : bytes -> result (A * bytes)) (count : nat)
    (msg : bytes) : result (list A * bytes) :=
  match count with
  | O => Ok ([], msg)
  | Datatypes.S count' =>
      ' (x, rest) <- f msg ;;
      ' (xs, rest') <- unpackMany f count' rest ;;
      Ok (x :: xs, rest')
  end.

Definition Unpack (msg : bytes) : result Dns.Msg :=
  ' (id, rest) <- unpackUint16 msg ;;
  ' (bits, rest) <- unpackUint16 rest ;;
  ' (qdcount, rest) <- unpackUint16 rest ;;
  ' (ancount, rest) <- unpackUint16 rest ;;
  ' (nscount, rest) <- unpackUint16 rest ;;
  ' (arcount, rest) <- unpackUint16 rest ;;
  let hdr questions answer ns extra rcode :=
    Dns.mkMsg id (Z.testbit bits 15) (Z.land (Z.shiftr bits 11) 15)
      (Z.testbit bits 10) (Z.testbit bits 9) (Z.testbit bits 8)
      (Z.testbit bits 7) (Z.testbit bits 6) (Z.testbit bits 5)
      (Z.testbit bits 4) rcode false questions answer ns extra in
  match rest with
  | [] => Ok (hdr [] [] [] [] (Z.land bits 15))
  | _ =>
      ' (questions, rest) <- unpackMany unpackQuestion (Z.to_nat qdcount) rest ;;
      ' (answer, rest) <- unpackMany unpackRR (Z.to_nat ancount) rest ;;
      ' (ns, rest) <- unpackMany unpackRR (Z.to_nat nscount) rest ;;
      ' (extra, rest) <- unpackMany unpackRR (Z.to_nat arcount) rest ;;
      let m := hdr questions answer ns extra (Z.land bits 15) in
      match Dns.IsEdns0 m with
      | Some opt =>
          let ext := Z.land (Z.shiftr (Dns.Ttl (Dns.Header opt)) 24) 255 in
          Ok (hdr questions answer ns extra
                (Z.lor (Z.land bits 15) (Z.shiftl ext 4)))
      | None => Ok m
      end
  end.

End Wire.

(** *** Messages and substrates used in the examples *)

Definition tunnelDomain : gostring := lit "tunnel.example.com".

(** The wire bytes of the server's response carrying "hello" (72 bytes). *)
Definition helloResponseWire : bytes :=
  match CreateResponse (dummyQuery 4660 tunnelDomain) (lit "hello") with
  | Some msg => match Wire.Pack msg with Ok w => w | Err _ => [] end
  | None => []
  end.


(** The wire bytes of the client's queries carrying "hello" and "world". *)
Definition helloQueryWire : bytes :=
  match CreateQuery 4660 (lit "hello") tunnelDomain with
  | Ok msg => match Wire.Pack msg with Ok w => w | Err _ => [] end
  | Err _ => []
  end.


(** The messages these wire bytes deserialize to. *)
Definition helloResponseMsg : Dns.Msg :=
  match Wire.Unpack helloResponseWire with
  | Ok msg => msg
  | Err _ => Dns.newMsg
  end.

Definition helloQueryMsg : Dns.Msg :=
  match Wire.Unpack helloQueryWire with
  | Ok msg => msg
  | Err _ => Dns.newMsg
  end.

(** A substrate that delivers the given chunks, one per read. *)
Definition arriving (chunks : list bytes) : ScriptStream :=
  mkScript (map (fun c => (c, None)) chunks) [].

(** *** Accumulation across substrate reads, as a property of a read

    A message [c1 ++ c2] that fits the 4096-byte buffer arrives in two
    substrate reads, and [c1] alone does not deserialize.  An adapter that
    accumulates delivers the payload of the whole message. *)
Definition clientAccumulates (Unpack : bytes -> result Dns.Msg) : Prop :=
  forall (c1 c2 : bytes) (domain : gostring) (p : bytes) (msg : Dns.Msg)
         (data : bytes),
    (length (c1 ++ c2) <= 4096)%nat ->
    (forall m, Unpack c1 <> Ok m) ->
    Unpack (c1 ++ c2) = Ok msg ->
    ParseResponseData msg = Ok data ->
    fst (dnsStream_Read Unpack (mkDnsStream (arriving [c1; c2]) domain) p)
    = mkIO (fst (copy p data)) (snd (copy p data)) None.

Definition serverAccumulates (Unpack : bytes -> result Dns.Msg) : Prop :=
  forall (c1 c2 : bytes) (domain : gostring) (p : bytes) (msg : Dns.Msg)
         (data : bytes),
    (length (c1 ++ c2) <= 4096)%nat ->
    (forall m, Unpack c1 <> Ok m) ->
    Unpack (c1 ++ c2) = Ok msg ->
    ParseQueryData msg domain = Ok data ->
    fst (serverDNSStream_Read Unpack
           (mkServerDNSStream (arriving [c1; c2]) domain) p)
    = mkIO (fst (copy p data)) (snd (copy p data)) None.

(** ** pkg/proxy/proxy.go: BiDirectionalCopy *)

Definition isEOF (e : error) : bool :=
  match e with
  | EOF => true
  | _ => false
  end.

(** A copy direction that ended with end of input: [io.Copy] returned
    [nil], or the error is [io.EOF]. *)
Definition endOfInput (r : option error) : bool :=
  match r with
  | None => true
  | Some e => isEOF e
  end.

(** The tail of [BiDirectionalCopy], after [err1] and [err2] were
    received from the channel. *)
Definition firstNonEOF (err1 err2 : option error) : option error :=
  match err1 with
  | Some e1 =>
      if negb (isEOF e1) then Some e1
      else match err2 with
           | Some e2 => if negb (isEOF e2) then Some e2 else None
           | None => None
           end
  | None =>
      match err2 with
      | Some e2 => if negb (isEOF e2) then Some e2 else None
      | None => None
      end
  end.

Module BiDirectionalCopy.

(** A copier goroutine [copy(dst, src)]: it is inside [io.Copy], or it has
    sent the error of [io.Copy] on [errChan]. *)
Inductive copier : Type :=
| Copying
| Sent.

(** The calling goroutine: before [err1 := <-errChan], before
    [err2 := <-errChan], and after [return]. *)
Inductive caller : Type :=
| AwaitFirst
| AwaitSecond (err1 : option error)
| Returned (ret : option error).

Record state : Type := mkState {
  copy_a_b : copier;            (* go copy(a, b) *)
  copy_b_a : copier;            (* go copy(b, a) *)
  errChan : list (option error); (* make(chan error, 2) *)
  main : caller
}.

Definition init : state := mkState Copying Copying [] AwaitFirst.

Section Run.
(** What [io.Copy(a, b)] and [io.Copy(b, a)] return when they return. *)
Variables res_a_b res_b_a : option error.

(** One step of one goroutine.  A send needs room in the channel, a
    receive needs an element in it. *)
Inductive step : state -> state -> Prop :=
| step_send_a_b (st : state) :
    copy_a_b st = Copying ->
    (length (errChan st) < 2)%nat ->
    step st (mkState Sent (copy_b_a st) (errChan st ++ [res_a_b]) (main st))
| step_send_b_a (st : state) :
    copy_b_a st = Copying ->
    (length (errChan st) < 2)%nat ->
    step st (mkState (copy_a_b st) Sent (errChan st ++ [res_b_a]) (main st))
| step_recv_first (st : state) (err1 : option error) (q : list (option error)) :
    main st = AwaitFirst ->
    errChan st = err1 :: q ->
    step st (mkState (copy_a_b st) (copy_b_a st) q (AwaitSecond err1))
| step_recv_second (st : state) (err1 err2 : option error)
    (q : list (option error)) :
    main st = AwaitSecond err1 ->
    errChan st = err2 :: q ->
    step st (mkState (copy_a_b st) (copy_b_a st) q
               (Returned (firstNonEOF err1 err2))).

Inductive reachable : state -> Prop :=
| reach_init : reachable init
| reach_step (st st' : state) : reachable st -> step st st' -> reachable st'.

(** Both copiers have sent, the caller has received twice and returned. *)
Definition finished : state :=
  mkState Sent Sent [] (Returned (firstNonEOF res_a_b res_b_a)).

(** The errors sent so far, in the order of sending. *)
Definition sentSoFar (st : state) (l : list (option error)) : Prop :=
  match copy_a_b st, copy_b_a st with
  | Copying, Copying => l = []
  | Sent, Copying => l = [res_a_b]
  | Copying, Sent => l = [res_b_a]
  | Sent, Sent => l = [res_a_b; res_b_a] \/ l = [res_b_a; res_a_b]
  end.

(** What the caller has received, followed by what waits in the
    channel, is what has been sent. *)
Definition invariant (st : state) : Prop :=
  match main st with
  | AwaitFirst => sentSoFar st (errChan st)
  | AwaitSecond err1 => sentSoFar st (err1 :: errChan st)
  | Returned ret =>
      exists err1 err2,
        sentSoFar st [err1; err2]
        /\ errChan st = []
        /\ ret = firstNonEOF err1 err2
  end.

End Run.

End BiDirectionalCopy.

(** ** pkg/transport/client.go: the client *)

(** The [quic.Connection] of the client, as the client uses it. *)
Class QuicConnection (C S : Type) : Type := {
  conn_OpenStreamSync : C -> result S * C;
  conn_CloseWithError : C -> Z -> string -> option error * C
}.

(** A line written by [log.Printf]: the format and its arguments. *)
Definition logLine : Type := (string * list fmtArg)%type.

Section ClientSide.
Context {C S : Type} {qconn : QuicConnection C S} {quic : QuicStream S}.

(** [Client]: the address, the domain and the connection, [nil] until
    [Connect] succeeds.  (The TLS and QUIC settings are constants of
    [NewClient]; the lock orders concurrent callers.) *)
Record Client : Type := mkClient {
  serverAddr : gostring;
  client_domain : gostring;
  client_conn : option C
}.

Definition NewClient (serverAddr domain : gostring) : Client :=
  mkClient serverAddr domain None.

(** [quic.DialAddr] is the parameter [dialAddr]. *)
Definition Client_Connect (dialAddr : gostring -> result C) (c : Client)
  : option error * Client * list logLine :=
  match dialAddr (serverAddr c) with
  | Err err =>
      (Some (Errorf "failed to connect to server: %w" [ArgErr err]), c, [])
  | Ok conn =>
      (None, mkClient (serverAddr c) (client_domain c) (Some conn),
       [("Connected to server at %s"%string, [ArgStr (serverAddr c)])])
  end.

Definition Client_OpenStream (c : Client) : result (@dnsStream S) * Client :=
  match client_conn c with
  | None => (Err (Errorf "not connected to server" []), c)
  | Some conn =>
      let '(r, conn') := conn_OpenStreamSync conn in
      let c' := mkClient (serverAddr c) (client_domain c) (Some conn') in
      match r with
      | Err err => (Err (Errorf "failed to open stream: %w" [ArgErr err]), c')
      | Ok stream => (Ok (mkDnsStream stream (client_domain c)), c')
      end
  end.

Definition Client_Close (c : Client) : option error * Client :=
  match client_conn c with
  | Some conn =>
      let '(err, conn') := conn_CloseWithError conn 0 "client closing" in
      (err, mkClient (serverAddr c) (client_domain c) (Some conn'))
  | None => (None, c)
  end.

End ClientSide.

(** ** pkg/proxy/proxy.go: the handlers *)

(** A [net.Conn], as the handlers use it directly. *)
Class NetConn (T : Type) : Type := {
  net_Close : T -> option error * T;
  net_RemoteAddr : T -> gostring
}.

Section Handlers.
Context {C S T : Type} {qconn : QuicConnection C S} {quic : QuicStream S}
        {net : NetConn T}.

(** What [TCPProxy.handleConnection] leaves behind: the TCP connection,
    the client, the stream if one was opened, the wait group counter and
    the log. *)
Record connectionOutcome : Type := mkConnectionOutcome {
  co_conn : T;
  co_client : @Client C;
  co_stream : option (@dnsStream S);
  co_wg : Z;
  co_log : list logLine
}.

(** [TCPProxy.handleConnection].  [relay conn stream] is
    [BiDirectionalCopy(conn, stream)]: its error and the two endpoints
    afterwards.  The deferred calls run last, in reverse order:
    [stream.Close()], [conn.Close()], [p.wg.Done()]. *)
Definition handleConnection
    (relay : T -> @dnsStream S -> option error * (T * @dnsStream S))
    (client : @Client C) (wg : Z) (conn : T) : connectionOutcome :=
  let log1 :=
    [("New TCP connection from %s"%string, [ArgStr (net_RemoteAddr conn)])] in
  match Client_OpenStream client with
  | (Err err, client') =>
      let log2 := [("Failed to open stream: %v"%string, [ArgErr err])] in
      let '(_, conn') := net_Close conn in
      mkConnectionOutcome conn' client' None (wg - 1) (log1 ++ log2)
  | (Ok stream, client') =>
      let '(err, (conn1, stream1)) := relay conn stream in
      let log2 :=
        match err with
        | Some e => [("Proxy error: %v"%string, [ArgErr e])]
        | None => []
        end in
      let log3 :=
        [("Connection closed: %s"%string, [ArgStr (net_RemoteAddr conn1)])] in
      let '(_, stream2) := dnsStream_Close stream1 in
      let '(_, conn2) := net_Close conn1 in
      mkConnectionOutcome conn2 client' (Some stream2) (wg - 1)
        (log1 ++ log2 ++ log3)
  end.

(** What [ServerProxy.HandleStream] leaves behind: the error it returns,
    the stream, the target connection if the dial succeeded, the log. *)
Record streamOutcome : Type := mkStreamOutcome {
  so_err : option error;
  so_stream : @serverDNSStream S;
  so_conn : option T;
  so_log : list logLine
}.

(** [ServerProxy.HandleStream] on the server's adapter.  [dial] is
    [net.Dial("tcp", addr)], [relay stream conn] is
    [BiDirectionalCopy(stream, conn)].  The deferred calls run last, in
    reverse order: [conn.Close()], [stream.Close()]. *)
Definition HandleStream
    (dial : gostring -> result T)
    (relay : @serverDNSStream S -> T -> option error * (@serverDNSStream S * T))
    (targetAddr : gostring) (stream : @serverDNSStream S) : streamOutcome :=
  match dial targetAddr with
  | Err err =>
      let '(_, stream') := serverDNSStream_Close stream in
      mkStreamOutcome
        (Some (Errorf "failed to connect to target %s: %w"
                 [ArgStr targetAddr; ArgErr err]))
        stream' None []
  | Ok conn =>
      let log1 := [("Proxying to %s"%string, [ArgStr targetAddr])] in
      let '(err, (stream1, conn1)) := relay stream conn in
      let '(_, conn2) := net_Close conn1 in
      let '(_, stream2) := serverDNSStream_Close stream1 in
      mkStreamOutcome
        (match err with
         | Some e => Some (Errorf "proxy error: %w" [ArgErr e])
         | None => None
         end)
        stream2 (Some conn2) log1
  end.

(** ** pkg/transport/server.go: handleStream *)

(** [Server.handleStream] with a handler that gives a [streamOutcome]:
    the adapter is built on the stream with the server's domain, the
    handler runs, its error is logged, and the deferred [stream.Close()]
    closes the substrate stream the adapter shares.  The result is the
    substrate stream afterwards, the handler's outcome and the log. *)
Definition handleStream
    (handler : @serverDNSStream S -> streamOutcome)
    (domain : gostring) (stream : S) : S * streamOutcome * list logLine :=
  let dnsStream := mkServerDNSStream stream domain in
  let out := handler dnsStream in
  let log :=
    match so_err out with
    | Some err => [("Stream handler error: %v"%string, [ArgErr err])]
    | None => []
    end in
  let '(_, stream') := stream_Close (server_stream (so_stream out)) in
  (stream', out, so_log out ++ log).

End Handlers.

(** *** A substrate and a connection that count how often they are closed *)

Record CountingStream : Type := mkCounting {
  cs_script : ScriptStream;
  cs_closes : nat
}.

#[export] Instance CountingQuic : QuicStream CountingStream := {
  stream_Read s cap :=
    let '(r, sc) := script_Read (cs_script s) cap in
    (r, mkCounting sc (cs_closes s));
  stream_Write s b :=
    let '(r, sc) := script_Write (cs_script s) b in
    (r, mkCounting sc (cs_closes s));
  stream_Close s := (None, mkCounting (cs_script s) (Datatypes.S (cs_closes s)))
}.

(** A TCP connection: its remote address and how often it was closed. *)
Record CountingConn : Type := mkCountingConn {
  cc_addr : gostring;
  cc_closes : nat
}.

#[export] Instance CountingNet : NetConn CountingConn := {
  net_Close c := (None, mkCountingConn (cc_addr c) (Datatypes.S (cc_closes c)));
  net_RemoteAddr c := cc_addr c
}.

(** A connection that opens counting streams; [None] is a connection
    that refuses to. *)
#[export] Instance CountingConnection
  : QuicConnection (option CountingStream) CountingStream := {
  conn_OpenStreamSync c :=
    match c with
    | Some s => (Ok s, c)
    | None => (Err (TransportError "stream refused"), c)
    end;
  conn_CloseWithError c _ _ := (None, c)
}.

(** [BiDirectionalCopy] calls [Read] and [Write] on its endpoints and
    never [Close]: a relay keeps the close counts of both. *)
Definition serverRelayKeepsCounts
    (relay : @serverDNSStream CountingStream -> CountingConn ->
             option error * (@serverDNSStream CountingStream * CountingConn))
  : Prop :=
  forall ds conn,
    cs_closes (server_stream (fst (snd (relay ds conn))))
    = cs_closes (server_stream ds)
    /\ cc_closes (snd (snd (relay ds conn))) = cc_closes conn.

Definition clientRelayKeepsCounts
    (relay : CountingConn -> @dnsStream CountingStream ->
             option error * (CountingConn * @dnsStream CountingStream))
  : Prop :=
  forall conn ds,
    cc_closes (fst (snd (relay conn ds))) = cc_closes conn
    /\ cs_closes (stream (snd (snd (relay conn ds)))) = cs_closes (stream ds).

(** ** Notions used to state further properties of the code *)

(** The case mapping of one byte, as [ToUpper] and [ToLower] apply it. *)
Definition upperByte (c : byte) : byte :=
  if Strings.isLower c then to_u8 (u8 c - 32) else c.

Definition lowerByte (c : byte) : byte :=
  if Strings.isUpper c then to_u8 (u8 c + 32) else c.

(** A character of an encoded subdomain: a lower-case letter, a digit from
    2 to 7, or the dot between labels. *)
Definition subdomainChar (c : byte) : bool :=
  Strings.isLower c || ((50 <=? u8 c) && (u8 c <=? 55)) || byte_eqb c dot.

(** A character [DecodeSubdomain] accepts: a dot (removed first), a line
    break (skipped by the decoder), or a character whose upper case is in
    the base32 alphabet. *)
Definition decodableChar (c : byte) : bool :=
  byte_eqb c dot || byte_eqb c x0d || byte_eqb c x0a
  || negb (Base32.decodeMap (upperByte c) =? 255).

(** A string of ASCII bytes, on which [ToUpper] and [ToLower] map letters
    and nothing else. *)
Definition isASCII (s : gostring) : bool := forallb (fun c => u8 c <? 128) s.

(** The number of base32 characters for [n] bytes, without padding. *)
Definition base32Len (n : nat) : nat := ((8 * n + 4) / 5)%nat.

(** The lengths of the pieces when [n] items are cut into pieces of
    [size]: full pieces, then the rest if there is one. *)
Definition pieceLengths (size n : nat) : list nat :=
  repeat size (n / size)
  ++ (if (n mod size =? 0)%nat then [] else [(n mod size)%nat]).

(** The outcome of a read into [p]: an error with count 0 and the buffer
    untouched, or no error, a count within the buffer, and the buffer
    unchanged in length and past the count. *)
Definition readOutcome (p : bytes) (r : ioResult) : Prop :=
  match io_err r with
  | Some _ => io_n r = 0%nat /\ io_buf r = p
  | None =>
      (io_n r <= length p)%nat
      /\ length (io_buf r) = length p
      /\ skipn (io_n r) (io_buf r) = skipn (io_n r) p
  end.

(** The outcome of a write of [p]: the whole payload is reported written
    with no error, or nothing is, with an error; [p] is not changed. *)
Definition writeOutcome (p : bytes) (r : ioResult) : Prop :=
  io_buf r = p
  /\ ((io_n r = length p /\ io_err r = None)
      \/ (io_n r = 0%nat /\ io_err r <> None)).

(** * Properties *)

(** ** Bit-level facts on one base32 quantum *)

Lemma u8_range (b : byte) : 0 <= u8 b < 256.
Proof.
  unfold u8. pose proof (Byte.to_N_bounded b). lia.
Qed.

Lemma to_u8_u8 (b : byte) : to_u8 (u8 b) = b.
Proof.
  unfold to_u8, u8. pose proof (Byte.to_N_bounded b).
  rewrite Z.mod_small by lia. rewrite N2Z.id, Byte.of_to_N. reflexivity.
Qed.

Lemma to_u8_mod (z : Z) : to_u8 (z mod 256) = to_u8 z.
Proof.
  unfold to_u8. rewrite Z.mod_mod by lia. reflexivity.
Qed.

Lemma to_u8_eq (z : Z) (b : byte) : z mod 256 = u8 b -> to_u8 z = b.
Proof.
  intros H. rewrite <- to_u8_mod, H. apply to_u8_u8.
Qed.

Lemma u8_testbit_high (b : byte) (i : Z) : 8 <= i -> Z.testbit (u8 b) i = false.
Proof.
  intros Hi. pose proof (u8_range b) as Hb.
  destruct (Z.eq_dec (u8 b) 0) as [E|E]; [rewrite E; apply Z.bits_0|].
  apply Z.bits_above_log2; [lia|].
  assert (Z.log2 (u8 b) < 8); [|lia].
  apply Z.log2_lt_pow2; lia.
Qed.

Ltac quantum_bits :=
  apply to_u8_eq;
  change 256 with (2 ^ 8); change 31 with (Z.ones 5);
  Z.bitblast;
  repeat match goal with
    | |- context [Z.testbit (u8 ?b) ?i] =>
        first [ rewrite (u8_testbit_high b i) by lia
              | rewrite (Z.testbit_neg_r (u8 b) i) by lia ]
    end;
  try btauto.

Section Quantum.
Variables s0 s1 s2 s3 s4 : byte.

Let d (i : nat) : Z :=
  Z.land (nth i (Base32.unpack5 (u8 s0) (u8 s1) (u8 s2) (u8 s3) (u8 s4)) 0) 31.

Lemma pack8_unpack5 :
  Base32.pack8 (d 0) (d 1) (d 2) (d 3) (d 4) (d 5) (d 6) (d 7)
  = [s0; s1; s2; s3; s4].
Proof.
  unfold Base32.pack8, d, Base32.unpack5, nth.
  repeat f_equal.
  all: quantum_bits.
Qed.

End Quantum.


Example EncodeSubdomain_hi :
  EncodeSubdomain (lit "hi") = lit "nbuq".
Proof. reflexivity. Qed.

Example DecodeSubdomain_hi :
  DecodeSubdomain (lit "nbuq") = Ok (lit "hi").
Proof. reflexivity. Qed.

Example CalculateMaxPayloadSize_18 : CalculateMaxPayloadSize 18 = 145.
Proof. reflexivity. Qed.

Lemma script_Read_len (s : ScriptStream) (cap : nat) :
  (length (fst (fst (script_Read s cap))) <= cap)%nat.
Proof.
  unfold script_Read. destruct (pending s) as [|[b e] rest]; simpl; [lia|].
  destruct (Nat.leb_spec (length b) cap); simpl; [lia|].
  rewrite length_firstn. lia.
Qed.


(** ** encoding/base32: decoding inverts encoding *)

Lemma land31_range (d : Z) : 0 <= Z.land d 31 < 32.
Proof.
  change 31 with (Z.ones 5). rewrite Z.land_ones by lia.
  apply Z.mod_pos_bound. reflexivity.
Qed.

Lemma encodeChar_In (d : Z) : In (Base32.encodeChar d) Base32.encodeStd.
Proof.
  unfold Base32.encodeChar. apply nth_In.
  pose proof (land31_range d).
  change (length Base32.encodeStd) with 32%nat. lia.
Qed.

Lemma decodeMap_nth (n : nat) :
  (n < 32)%nat ->
  Base32.decodeMap (nth n Base32.encodeStd x00) = Z.of_nat n.
Proof.
  intros Hn.
  do 32 (destruct n as [|n]; [reflexivity|]).
  lia.
Qed.

Lemma decodeMap_encodeChar (d : Z) :
  Base32.decodeMap (Base32.encodeChar d) = Z.land d 31.
Proof.
  unfold Base32.encodeChar. pose proof (land31_range d).
  rewrite decodeMap_nth by lia. lia.
Qed.

(** A property of all 32 characters of the alphabet holds of every
    character the encoder writes. *)
Lemma alphabet_forallb (P : byte -> bool) (d : Z) :
  forallb P Base32.encodeStd = true -> P (Base32.encodeChar d) = true.
Proof.
  intros H. rewrite forallb_forall in H. apply H, encodeChar_In.
Qed.

Lemma firstCorrupt_encoded (ds : list Z) (off : Z) :
  Base32.firstCorrupt (map Base32.encodeChar ds) off = None.
Proof.
  revert off. induction ds as [|d ds IH]; intros off; simpl; [reflexivity|].
  rewrite decodeMap_encodeChar.
  pose proof (land31_range d).
  destruct (Z.eqb_spec (Z.land d 31) 255); [lia|]. apply IH.
Qed.

Lemma stripNewlines_encoded (ds : list Z) :
  Base32.stripNewlines (map Base32.encodeChar ds) = map Base32.encodeChar ds.
Proof.
  unfold Base32.stripNewlines.
  induction ds as [|d ds IH]; simpl; [reflexivity|].
  rewrite (alphabet_forallb
             (fun c => negb (byte_eqb c x0d || byte_eqb c x0a)) d eq_refl).
  now rewrite IH.
Qed.

(** Digits of a quantum pass through the alphabet and back masked to five
    bits; [pack8_unpack5] recovers the bytes from the masked digits. *)
Lemma decodeDigits_encodeDigits (src : list byte) :
  Base32.decodeDigits (map (fun d => Z.land d 31) (Base32.encodeDigits src))
  = src.
Proof.
  remember (length src) as n eqn:Hn.
  revert src Hn.
  induction n as [n IH] using lt_wf_ind. intros src Hn.
  destruct src as [|s0 [|s1 [|s2 [|s3 [|s4 rest]]]]].
  - reflexivity.
  - transitivity (firstn 1 [s0; x00; x00; x00; x00]); [|reflexivity].
    rewrite <- (pack8_unpack5 s0 x00 x00 x00 x00). reflexivity.
  - transitivity (firstn 2 [s0; s1; x00; x00; x00]); [|reflexivity].
    rewrite <- (pack8_unpack5 s0 s1 x00 x00 x00). reflexivity.
  - transitivity (firstn 3 [s0; s1; s2; x00; x00]); [|reflexivity].
    rewrite <- (pack8_unpack5 s0 s1 s2 x00 x00). reflexivity.
  - transitivity (firstn 4 [s0; s1; s2; s3; x00]); [|reflexivity].
    rewrite <- (pack8_unpack5 s0 s1 s2 s3 x00). reflexivity.
  - pose proof (pack8_unpack5 s0 s1 s2 s3 s4) as E.
    change (Base32.encodeDigits (s0 :: s1 :: s2 :: s3 :: s4 :: rest))
      with (Base32.unpack5 (u8 s0) (u8 s1) (u8 s2) (u8 s3) (u8 s4)
              ++ Base32.encodeDigits rest).
    rewrite map_app.
    unfold Base32.unpack5 at 1. simpl map at 1. simpl app.
    simpl in E.
    change (Base32.decodeDigits (?a :: ?b)) with (Base32.decodeDigits (a :: b)).
    cbn [Base32.decodeDigits]. rewrite E. cbn [app]. do 5 f_equal.
    apply (IH (length rest)); [subst n; simpl; lia | reflexivity].
Qed.

(** ** Strings *)

Lemma byte_eqb_refl (c : byte) : byte_eqb c c = true.
Proof. apply Byte.byte_dec_lb. reflexivity. Qed.

Lemma byte_eqb_eq (a b : byte) : byte_eqb a b = true <-> a = b.
Proof.
  split; [apply Byte.byte_dec_bl | apply Byte.byte_dec_lb].
Qed.

Lemma byte_eqb_neq (a b : byte) : byte_eqb a b = false <-> a <> b.
Proof.
  split.
  - apply Byte.eqb_false.
  - intros H. destruct (byte_eqb a b) eqn:E; [|reflexivity].
    apply byte_eqb_eq in E. contradiction.
Qed.

Lemma bytes_eqb_eq (s t : list byte) : bytes_eqb s t = true <-> s = t.
Proof.
  revert t. induction s as [|a s IH]; intros [|b t]; simpl;
    try (split; [discriminate | discriminate]); try tauto.
  rewrite andb_true_iff, byte_eqb_eq, IH.
  split; [intros [-> ->]; reflexivity | intros [= -> ->]; auto].
Qed.

Lemma bytes_eqb_refl (s : list byte) : bytes_eqb s s = true.
Proof. apply bytes_eqb_eq. reflexivity. Qed.

Lemma HasSuffix_app (a suffix : gostring) :
  Strings.HasSuffix (a ++ suffix) suffix = true.
Proof.
  unfold Strings.HasSuffix. rewrite length_app.
  replace (length a + length suffix - length suffix)%nat with (length a) by lia.
  rewrite skipn_app, Nat.sub_diag, skipn_all. simpl.
  rewrite bytes_eqb_refl, andb_true_r.
  apply Nat.leb_le. lia.
Qed.

Lemma TrimSuffix_app (a suffix : gostring) :
  Strings.TrimSuffix (a ++ suffix) suffix = a.
Proof.
  unfold Strings.TrimSuffix. rewrite HasSuffix_app, length_app.
  replace (length a + length suffix - length suffix)%nat with (length a) by lia.
  rewrite firstn_app, Nat.sub_diag, firstn_all. simpl. apply app_nil_r.
Qed.

Lemma HasSuffix_true (s suffix : gostring) :
  Strings.HasSuffix s suffix = true -> exists a, s = a ++ suffix.
Proof.
  unfold Strings.HasSuffix. rewrite andb_true_iff, bytes_eqb_eq.
  intros [_ E]. exists (firstn (length s - length suffix) s).
  transitivity (firstn (length s - length suffix) s
                ++ skipn (length s - length suffix) s).
  - symmetry. apply firstn_skipn.
  - f_equal. exact E.
Qed.

Lemma TrimSuffix_unrooted (s : gostring) :
  unrooted s = true -> Strings.TrimSuffix s [dot] = s.
Proof.
  unfold unrooted, Strings.TrimSuffix. intros H.
  apply negb_true_iff in H. now rewrite H.
Qed.

Lemma ReplaceAll_app (s t : gostring) (old : byte) (new : gostring) :
  Strings.ReplaceAll (s ++ t) old new
  = Strings.ReplaceAll s old new ++ Strings.ReplaceAll t old new.
Proof. apply flat_map_app. Qed.

Lemma ReplaceAll_absent (s : gostring) (old : byte) (new : gostring) :
  Forall (fun c => c <> old) s -> Strings.ReplaceAll s old new = s.
Proof.
  induction 1 as [|c s Hc _ IH]; simpl; [reflexivity|].
  apply byte_eqb_neq in Hc. rewrite Hc. simpl. now rewrite IH.
Qed.

Lemma ReplaceAll_Join (ls : list gostring) :
  Forall (Forall (fun c => c <> dot)) ls ->
  Strings.ReplaceAll (Strings.Join ls [dot]) dot [] = concat ls.
Proof.
  induction 1 as [|l ls Hl Hls IH]; [reflexivity|].
  destruct ls as [|l' ls].
  - simpl. rewrite app_nil_r. now apply ReplaceAll_absent.
  - change (Strings.Join (l :: l' :: ls) [dot])
      with (l ++ [dot] ++ Strings.Join (l' :: ls) [dot]).
    rewrite !ReplaceAll_app, IH, ReplaceAll_absent by assumption.
    reflexivity.
Qed.

Lemma Split_absent (s : gostring) :
  Forall (fun c => c <> dot) s -> Strings.Split s dot = [s].
Proof.
  induction 1 as [|c s Hc _ IH]; simpl; [reflexivity|].
  apply byte_eqb_neq in Hc. now rewrite Hc, IH.
Qed.

Lemma Split_app_dot (l t : gostring) :
  Forall (fun c => c <> dot) l ->
  Strings.Split (l ++ [dot] ++ t) dot = l :: Strings.Split t dot.
Proof.
  induction 1 as [|c l Hc _ IH]; simpl.
  - reflexivity.
  - apply byte_eqb_neq in Hc. rewrite Hc. simpl in IH. now rewrite IH.
Qed.

Lemma Split_Join (ls : list gostring) :
  ls <> [] ->
  Forall (Forall (fun c => c <> dot)) ls ->
  Strings.Split (Strings.Join ls [dot]) dot = ls.
Proof.
  intros Hne H. induction H as [|l ls Hl Hls IH]; [contradiction|].
  destruct ls as [|l' ls].
  - simpl. now apply Split_absent.
  - change (Strings.Join (l :: l' :: ls) [dot])
      with (l ++ [dot] ++ Strings.Join (l' :: ls) [dot]).
    rewrite Split_app_dot by assumption. f_equal. apply IH. discriminate.
Qed.

(** ** The label loop and the chunk loop *)

Ltac name_step n :=
  match goal with
  | |- context [firstn ?k (_ :: _)] => set (n := k) in *
  end.

Lemma splitLabels_concat (s : gostring) : concat (splitLabels s) = s.
Proof.
  funelim (splitLabels s); [reflexivity|].
  clear Heqcall. name_step n.
  cbn [concat]. rewrite H. apply firstn_skipn.
Qed.

Lemma splitLabels_length (s : gostring) :
  Forall (fun l => (1 <= length l <= MaxLabelLength)%nat) (splitLabels s).
Proof.
  funelim (splitLabels s); [constructor|].
  clear Heqcall. constructor; [|exact H].
  rewrite length_firstn. unfold MaxLabelLength. simpl length.
  destruct (Nat.ltb_spec (S (length s)) 63); lia.
Qed.

Lemma Forall_firstn_skipn {A} (P : A -> Prop) (n : nat) (l : list A) :
  Forall P l -> Forall P (firstn n l) /\ Forall P (skipn n l).
Proof.
  intros H. rewrite <- (firstn_skipn n l) in H. now apply Forall_app in H.
Qed.

Lemma splitLabels_Forall (P : byte -> Prop) (s : gostring) :
  Forall P s -> Forall (Forall P) (splitLabels s).
Proof.
  funelim (splitLabels s); [constructor|].
  clear Heqcall. name_step n. intros Hs.
  destruct (Forall_firstn_skipn P n (c :: s) Hs) as [Hf Hk].
  constructor; [exact Hf | exact (H P Hk)].
Qed.

Lemma splitLabels_nonempty (s : gostring) : s <> [] -> splitLabels s <> [].
Proof.
  destruct s; [contradiction|]. intros _. simp splitLabels. discriminate.
Qed.

Lemma splitTxt_concat (data : bytes) :
  flat_map bytes_of_string (splitTxt data) = data.
Proof.
  funelim (splitTxt data); [reflexivity|].
  clear Heqcall. name_step n.
  cbn [flat_map]. rewrite H. apply firstn_skipn.
Qed.

Lemma splitTxt_length (data : bytes) :
  Forall (fun t => (1 <= length t <= 255)%nat) (splitTxt data).
Proof.
  funelim (splitTxt data); [constructor|].
  clear Heqcall. constructor; [|exact H].
  unfold string_of_bytes. rewrite length_firstn. simpl length.
  destruct (Nat.ltb_spec (S (length d)) 255); lia.
Qed.

(** The lengths of the strings depend on the length of the data only. *)
Lemma splitTxt_lengths (data other : bytes) :
  length data = length other ->
  map (@length byte) (splitTxt data) = map (@length byte) (splitTxt other).
Proof.
  revert other. funelim (splitTxt data); intros other Hlen.
  - destruct other; [reflexivity|discriminate].
  - clear Heqcall. destruct other as [|c' d']; [discriminate|].
    simp splitTxt. cbn zeta. cbn [map]. unfold string_of_bytes.
    rewrite <- Hlen. f_equal.
    + rewrite !length_firstn. now rewrite Hlen.
    + apply H. rewrite !length_skipn. now rewrite Hlen.
Qed.

(** ** EncodeSubdomain and DecodeSubdomain *)

Lemma ToLower_encoded_no_dot (ds : list Z) :
  Forall (fun c => c <> dot) (Strings.ToLower (map Base32.encodeChar ds)).
Proof.
  unfold Strings.ToLower. rewrite map_map. apply Forall_map.
  apply Forall_forall. intros d _.
  apply byte_eqb_neq.
  apply negb_true_iff.
  exact (alphabet_forallb
           (fun c => negb (byte_eqb
                             (if Strings.isUpper c then to_u8 (u8 c + 32) else c)
                             dot))
           d eq_refl).
Qed.

Lemma ToUpper_ToLower_encoded (ds : list Z) :
  Strings.ToUpper (Strings.ToLower (map Base32.encodeChar ds))
  = map Base32.encodeChar ds.
Proof.
  unfold Strings.ToUpper, Strings.ToLower. rewrite !map_map.
  apply map_ext. intros d.
  apply byte_eqb_eq.
  exact (alphabet_forallb
           (fun c =>
              let l := if Strings.isUpper c then to_u8 (u8 c + 32) else c in
              byte_eqb (if Strings.isLower l then to_u8 (u8 l - 32) else l) c)
           d eq_refl).
Qed.

Lemma DecodeString_EncodeToString (data : bytes) :
  Base32.DecodeString (Base32.EncodeToString data) = inr data.
Proof.
  unfold Base32.DecodeString, Base32.EncodeToString.
  rewrite stripNewlines_encoded, firstCorrupt_encoded, map_map.
  rewrite (map_ext _ (fun d => Z.land d 31) decodeMap_encodeChar).
  now rewrite decodeDigits_encodeDigits.
Qed.

Lemma encodeDigits_nonempty (data : bytes) :
  data <> [] -> Base32.encodeDigits data <> [].
Proof.
  destruct data as [|s0 [|s1 [|s2 [|s3 [|s4 rest]]]]];
    [contradiction | discriminate ..].
Qed.

Lemma encoded_nonempty (data : bytes) :
  data <> [] -> Strings.ToLower (Base32.EncodeToString data) <> [].
Proof.
  intros H E. apply (encodeDigits_nonempty data H).
  unfold Strings.ToLower, Base32.EncodeToString in E.
  apply map_eq_nil in E. now apply map_eq_nil in E.
Qed.

(** The labels the loop of [EncodeSubdomain] appends are the labels of
    the subdomain it returns. *)
Lemma labels_EncodeSubdomain (data : bytes) :
  labels (EncodeSubdomain data)
  = splitLabels (Strings.ToLower (Base32.EncodeToString data)).
Proof.
  destruct data as [|b data]; [reflexivity|].
  unfold EncodeSubdomain.
  set (encoded := Strings.ToLower (Base32.EncodeToString (b :: data))).
  assert (Hne : encoded <> []) by (apply encoded_nonempty; discriminate).
  assert (Hdot : Forall (Forall (fun c => c <> dot)) (splitLabels encoded))
    by (apply splitLabels_Forall, ToLower_encoded_no_dot).
  pose proof (splitLabels_length encoded) as Hlen.
  pose proof (splitLabels_nonempty encoded Hne) as Hls.
  unfold labels.
  destruct (Strings.Join (splitLabels encoded) [dot]) eqn:EJ.
  - exfalso. destruct (splitLabels encoded) as [|l ls]; [contradiction|].
    inversion Hlen as [|? ? Hl _]; subst.
    destruct l as [|c l]; [simpl in Hl; lia|].
    destruct ls; discriminate.
  - rewrite <- EJ. now apply Split_Join.
Qed.

Lemma DecodeSubdomain_EncodeSubdomain (p : bytes) :
  DecodeSubdomain (EncodeSubdomain p) = Ok p.
Proof.
  destruct p as [|b p]; [reflexivity|].
  unfold DecodeSubdomain, EncodeSubdomain.
  rewrite ReplaceAll_Join
    by (apply splitLabels_Forall, ToLower_encoded_no_dot).
  rewrite splitLabels_concat.
  unfold Base32.EncodeToString at 1.
  rewrite ToUpper_ToLower_encoded.
  fold (Base32.EncodeToString (b :: p)).
  now rewrite DecodeString_EncodeToString.
Qed.

Lemma EncodeSubdomain_nonempty (p : bytes) :
  p <> [] -> EncodeSubdomain p <> [].
Proof.
  intros Hp E.
  pose proof (DecodeSubdomain_EncodeSubdomain p) as R.
  rewrite E in R. cbv in R. injection R as R. congruence.
Qed.

(** C1: decoding the encoded subdomain of any payload gives the payload
    back with no error; the empty payload encodes to the empty string and
    the empty string decodes to the empty payload. *)
Theorem C1_DecodeSubdomain_EncodeSubdomain :
  (forall p : bytes, DecodeSubdomain (EncodeSubdomain p) = Ok p)
  /\ EncodeSubdomain [] = []
  /\ DecodeSubdomain [] = Ok [].
Proof.
  split; [exact DecodeSubdomain_EncodeSubdomain | split; reflexivity].
Qed.

(** C6: every dot-separated label of an encoded subdomain has between 1
    and 63 characters. *)
Theorem C6_EncodeSubdomain_label_length (p : bytes) :
  Forall (fun l => (1 <= length l <= 63)%nat) (labels (EncodeSubdomain p)).
Proof.
  rewrite labels_EncodeSubdomain. apply splitLabels_length.
Qed.

(** ** Queries *)

Lemma bytes_eqb_length (s t : list byte) :
  length s <> length t -> bytes_eqb s t = false.
Proof.
  intros H. destruct (bytes_eqb s t) eqn:E; [|reflexivity].
  apply bytes_eqb_eq in E. subst. contradiction.
Qed.

Lemma HasSuffix_longer (s suffix : gostring) :
  (length s < length suffix)%nat -> Strings.HasSuffix s suffix = false.
Proof.
  intros H. unfold Strings.HasSuffix.
  destruct (Nat.leb_spec (length suffix) (length s)); [lia|reflexivity].
Qed.

Lemma ExtractSubdomain_CreateFQDN (subdomain domain : gostring) :
  unrooted domain = true ->
  ExtractSubdomain (CreateFQDN subdomain domain) domain = Ok subdomain.
Proof.
  intros Hd. unfold ExtractSubdomain, CreateFQDN.
  rewrite (TrimSuffix_unrooted domain Hd).
  destruct subdomain as [|c sub].
  - rewrite TrimSuffix_app.
    rewrite HasSuffix_longer by (simpl; lia).
    now rewrite bytes_eqb_refl.
  - replace ((c :: sub) ++ [dot] ++ domain ++ [dot])
      with (((c :: sub) ++ [dot] ++ domain) ++ [dot])
      by (now rewrite <- !app_assoc).
    rewrite TrimSuffix_app.
    rewrite HasSuffix_app, TrimSuffix_app.
    rewrite bytes_eqb_length; [reflexivity|].
    rewrite !length_app. simpl. lia.
Qed.



(** With the root dot written in the configured domain, the name
    [CreateFQDN] builds ends in two dots and does not parse back. *)
Example rooted_domain_query :
  exists msg err,
    CreateQuery 7 (lit "hi") (lit "example.com.") = Ok msg
    /\ ParseQueryData msg (lit "example.com.") = Err err.
Proof. do 2 eexists. split; reflexivity. Qed.

(** ** Responses *)

Lemma txtData_single (hdr : Dns.RR_Header) (data : bytes) :
  txtData [Dns.TXT hdr (splitTxt data)] = data.
Proof.
  unfold txtData. cbn [flat_map]. rewrite app_nil_r. apply splitTxt_concat.
Qed.

Lemma CreateResponse_empty (query : Dns.Msg) :
  CreateResponse query []
  = Some (Dns.with_Rcode (Dns.SetReply Dns.newMsg query) Dns.RcodeNameError).
Proof. reflexivity. Qed.

Lemma CreateResponse_nonempty (query : Dns.Msg) (question0 : Dns.Question)
    (rest : list Dns.Question) (data : bytes) :
  data <> [] ->
  Dns.Questions query = question0 :: rest ->
  exists msg : Dns.Msg,
    CreateResponse query data = Some msg
    /\ Dns.Rcode msg = Dns.RcodeSuccess
    /\ Dns.Answer msg
       = [Dns.TXT (Dns.mkHeader (Dns.Q_Name question0) Dns.TypeTXT
                     Dns.ClassINET DefaultTTL 0)
            (splitTxt data)].
Proof.
  intros Hd Hq. unfold CreateResponse.
  destruct data as [|b data]; [contradiction|].
  rewrite Hq.
  destruct (Dns.IsEdns0 query); eexists; (split; [reflexivity|]);
    split; reflexivity.
Qed.

Lemma CreateResponse_no_question (query : Dns.Msg) (data : bytes) :
  data <> [] -> Dns.Questions query = [] -> CreateResponse query data = None.
Proof.
  intros Hd Hq. unfold CreateResponse.
  destruct data; [contradiction|]. now rewrite Hq.
Qed.

Lemma splitTxt_600 (p : bytes) :
  length p = 600%nat -> map (@length byte) (splitTxt p) = [255; 255; 90]%nat.
Proof.
  intros H. rewrite (splitTxt_lengths p (repeat x00 600)).
  - reflexivity.
  - now rewrite repeat_length.
Qed.

(** C3: parsing the response built for a payload gives the payload back.
    The empty payload gives a message with code NXDOMAIN and no answer; a
    payload with bytes gives one TXT record whose strings, in order, have
    at most 255 bytes each and concatenate to the payload; 600 bytes give
    three strings of 255, 255 and 90 bytes.  The query has a question
    whenever the payload has bytes. *)
Theorem C3_ParseResponseData_CreateResponse (q : Dns.Msg) (p : bytes) :
  p = [] \/ Dns.Questions q <> [] ->
  exists msg : Dns.Msg,
    CreateResponse q p = Some msg
    /\ ParseResponseData msg = Ok p
    /\ (p = [] ->
        Dns.Rcode msg = Dns.RcodeNameError /\ Dns.Answer msg = [])
    /\ (p <> [] ->
        exists hdr,
          Dns.Answer msg = [Dns.TXT hdr (splitTxt p)]
          /\ Forall (fun t => (length t <= 255)%nat) (splitTxt p)
          /\ concat (splitTxt p) = p)
    /\ (length p = 600%nat ->
        map (@length byte) (splitTxt p) = [255; 255; 90]%nat).
Proof.
  intros H.
  destruct p as [|b p].
  - eexists. split; [apply CreateResponse_empty|].
    split; [reflexivity|]. split; [now split|].
    split; [congruence | discriminate].
  - destruct H as [H|H]; [discriminate|].
    destruct (Dns.Questions q) as [|question0 rest] eqn:Hq; [contradiction|].
    destruct (CreateResponse_nonempty q question0 rest (b :: p))
      as (msg & Hc & Hr & Ha); [discriminate | exact Hq |].
    exists msg. split; [exact Hc|].
    split.
    { unfold ParseResponseData. rewrite Hr, Ha. cbn [Z.eqb negb Dns.RcodeSuccess
        Dns.RcodeNameError]. now rewrite txtData_single. }
    split; [discriminate|].
    split.
    { intros _. eexists. split; [exact Ha|]. split.
      - eapply Forall_impl; [|apply splitTxt_length]. simpl. lia.
      - rewrite <- (splitTxt_concat (b :: p)) at 2.
        unfold bytes_of_string. now rewrite flat_map_concat_map, map_id. }
    apply splitTxt_600.
Qed.

Lemma C3_witness :
  (lit "hello" = [] \/ Dns.Questions (dummyQuery 7 (lit "tunnel.example.com")) <> [])
  /\ exists msg : Dns.Msg,
       CreateResponse (dummyQuery 7 (lit "tunnel.example.com")) (lit "hello")
       = Some msg
       /\ ParseResponseData msg = Ok (lit "hello").
Proof.
  assert (H : lit "hello" = []
              \/ Dns.Questions (dummyQuery 7 (lit "tunnel.example.com")) <> [])
    by (right; discriminate).
  split; [exact H|].
  destruct (C3_ParseResponseData_CreateResponse
              (dummyQuery 7 (lit "tunnel.example.com")) (lit "hello") H)
    as (msg & Hc & Hp & _).
  exists msg. split; assumption.
Defined.

(** ** The payload budget *)

Lemma wrap64_small (z : Z) : - 2 ^ 63 <= z < 2 ^ 63 -> wrap64 z = z.
Proof.
  intros H. unfold wrap64. rewrite Z.mod_small; lia.
Qed.

Lemma CalculateMaxPayloadSize_exact (d : Z) :
  fitsInt d ->
  CalculateMaxPayloadSize d = Z.quot ((MaxDomainLength - d - 2) * 5) 8.
Proof.
  unfold fitsInt, CalculateMaxPayloadSize, MaxDomainLength. intros H.
  rewrite (wrap64_small (253 - d)) by lia.
  rewrite (wrap64_small (253 - d - 2)) by lia.
  now rewrite wrap64_small by lia.
Qed.

(** C5: a longer domain name never leaves a larger payload budget, and
    the budget of the configured domain "tunnel.example.com" (18
    characters) is not negative.  Lengths are taken in the range where the
    64-bit product does not wrap. *)
Theorem C5_CalculateMaxPayloadSize_monotone (d1 d2 : Z) :
  fitsInt d1 -> fitsInt d2 -> d1 <= d2 ->
  CalculateMaxPayloadSize d2 <= CalculateMaxPayloadSize d1
  /\ 0 <= CalculateMaxPayloadSize
            (Z.of_nat (length (lit "tunnel.example.com"))).
Proof.
  intros H1 H2 Hle. split; [|now cbv].
  rewrite !CalculateMaxPayloadSize_exact by assumption.
  apply Z.quot_le_mono; lia.
Qed.

Lemma C5_witness :
  fitsInt 18 /\ fitsInt 300 /\ 18 <= 300
  /\ CalculateMaxPayloadSize 300 <= CalculateMaxPayloadSize 18
  /\ 0 <= CalculateMaxPayloadSize
            (Z.of_nat (length (lit "tunnel.example.com"))).
Proof.
  assert (H1 : fitsInt 18) by (unfold fitsInt, MaxDomainLength; lia).
  assert (H2 : fitsInt 300) by (unfold fitsInt, MaxDomainLength; lia).
  assert (H3 : 18 <= 300) by lia.
  exact (conj H1 (conj H2 (conj H3
           (C5_CalculateMaxPayloadSize_monotone 18 300 H1 H2 H3)))).
Defined.

(** Every length a Go string can have in practice is in that range, and
    so is every length from 0 to 2^60. *)
Lemma fitsInt_lengths (d : Z) : 0 <= d <= 2 ^ 60 -> fitsInt d.
Proof. unfold fitsInt, MaxDomainLength. lia. Qed.

(** ** Response codes *)

(** C7: a response whose code is neither success nor NXDOMAIN parses to an
    error whose text is built from the name of the code, never to a
    payload; ServerFailure reads "SERVFAIL"; NXDOMAIN alone parses to the
    empty payload with no error. *)
Theorem C7_ParseResponseData_rcode (msg : Dns.Msg) :
  (Dns.Rcode msg = Dns.RcodeNameError -> ParseResponseData msg = Ok [])
  /\ (Dns.Rcode msg <> Dns.RcodeSuccess ->
      Dns.Rcode msg <> Dns.RcodeNameError ->
      ParseResponseData msg
      = Err (Errorf "DNS response error: %s"
               [ArgStr (Dns.RcodeToString (Dns.Rcode msg))])
      /\ forall data, ParseResponseData msg <> Ok data)
  /\ (Dns.Rcode msg = Dns.RcodeServerFailure ->
      ParseResponseData msg
      = Err (Errorf "DNS response error: %s" [ArgStr (lit "SERVFAIL")])).
Proof.
  unfold ParseResponseData. repeat split.
  - intros ->. reflexivity.
  - destruct (Z.eqb_spec (Dns.Rcode msg) Dns.RcodeNameError); [contradiction|].
    destruct (Z.eqb_spec (Dns.Rcode msg) Dns.RcodeSuccess); [contradiction|].
    reflexivity.
  - destruct (Z.eqb_spec (Dns.Rcode msg) Dns.RcodeNameError); [contradiction|].
    destruct (Z.eqb_spec (Dns.Rcode msg) Dns.RcodeSuccess); [contradiction|].
    discriminate.
  - intros ->. reflexivity.
Qed.

Lemma C7_witness :
  let msg := CreateErrorResponse (dummyQuery 7 (lit "tunnel.example.com"))
               Dns.RcodeServerFailure in
  Dns.Rcode msg <> Dns.RcodeSuccess
  /\ Dns.Rcode msg <> Dns.RcodeNameError
  /\ ParseResponseData msg
     = Err (Errorf "DNS response error: %s" [ArgStr (lit "SERVFAIL")]).
Proof.
  intros msg.
  split; [discriminate|]. split; [discriminate|].
  apply (C7_ParseResponseData_rcode msg). reflexivity.
Defined.

(** A code that is not a key of [RcodeToString] still gives an error; the
    name in its text is empty. *)
Example ParseResponseData_rcode_12 :
  ParseResponseData (Dns.with_Rcode Dns.newMsg 12)
  = Err (Errorf "DNS response error: %s" [ArgStr []]).
Proof. reflexivity. Qed.

(** ** The question CreateResponse reads *)

Section ServerWrite.
Context {S : Type} {quic : QuicStream S}.
Variable Pack : Dns.Msg -> result bytes.

Lemma dummyQuery_one_question (id : Z) (domain : gostring) :
  Dns.Questions (dummyQuery id domain)
  = [Dns.mkQuestion (CreateFQDN [] domain) Dns.TypeTXT Dns.ClassINET].
Proof. reflexivity. Qed.

Lemma serverDNSStream_Write_no_panic (id : Z) (ds : serverDNSStream) (p : bytes) :
  serverDNSStream_Write Pack id ds p <> None.
Proof.
  unfold serverDNSStream_Write.
  destruct p as [|b p].
  - rewrite CreateResponse_empty.
    destruct (Pack _); [|discriminate].
    destruct (stream_Write _ _) as [[? [e|]] ?]; discriminate.
  - destruct (CreateResponse_nonempty (dummyQuery id (server_domain ds))
                (Dns.mkQuestion (CreateFQDN [] (server_domain ds)) Dns.TypeTXT
                   Dns.ClassINET) [] (b :: p))
      as (msg & Hc & _); [discriminate | reflexivity |].
    rewrite Hc.
    destruct (Pack _); [|discriminate].
    destruct (stream_Write _ _) as [[? [e|]] ?]; discriminate.
Qed.

End ServerWrite.

(** C10: with a payload that has bytes, [CreateResponse] reads the first
    question of the query to name the TXT record: a query without a
    question makes the access fail, a query with one gives the record that
    name.  The one call site, [serverDNSStream.Write], builds a query with
    exactly one question, so the access never fails there. *)
Theorem C10_CreateResponse_reads_question (q : Dns.Msg) (p : bytes) :
  p <> [] ->
  (Dns.Questions q = [] -> CreateResponse q p = None)
  /\ (forall question0 rest,
        Dns.Questions q = question0 :: rest ->
        exists msg hdr txt,
          CreateResponse q p = Some msg
          /\ Dns.Answer msg = [Dns.TXT hdr txt]
          /\ Dns.Name hdr = Dns.Q_Name question0)
  /\ (forall id domain, length (Dns.Questions (dummyQuery id domain)) = 1%nat)
  /\ (forall (S : Type) (quic : QuicStream S) (Pack : Dns.Msg -> result bytes)
        (id : Z) (ds : serverDNSStream) (data : bytes),
        serverDNSStream_Write Pack id ds data <> None).
Proof.
  intros Hp. split; [|split; [|split]].
  - intros Hq. now apply CreateResponse_no_question.
  - intros question0 rest Hq.
    destruct (CreateResponse_nonempty q question0 rest p Hp Hq)
      as (msg & Hc & _ & Ha).
    exists msg. do 2 eexists. split; [exact Hc|]. split; [exact Ha|].
    reflexivity.
  - reflexivity.
  - intros S quic Pack id ds data. apply serverDNSStream_Write_no_panic.
Qed.

Lemma C10_witness :
  lit "hello" <> []
  /\ CreateResponse Dns.newMsg (lit "hello") = None
  /\ exists msg hdr txt,
       CreateResponse (dummyQuery 7 (lit "tunnel.example.com")) (lit "hello")
       = Some msg
       /\ Dns.Answer msg = [Dns.TXT hdr txt]
       /\ Dns.Name hdr = lit "tunnel.example.com.".
Proof.
  assert (Hp : lit "hello" <> []) by discriminate.
  split; [exact Hp|]. split.
  - apply (C10_CreateResponse_reads_question Dns.newMsg (lit "hello") Hp).
    reflexivity.
  - destruct (C10_CreateResponse_reads_question
                (dummyQuery 7 (lit "tunnel.example.com")) (lit "hello") Hp)
      as (_ & H & _).
    exact (H _ _ eq_refl).
Defined.

(** ** The stream adapters read one substrate chunk per call *)

Section Adapters.
Context {S : Type} {quic : QuicStream S}.
Variable Unpack : bytes -> result Dns.Msg.

Lemma dnsStream_Read_state (ds : dnsStream) (p : bytes) :
  snd (dnsStream_Read Unpack ds p)
  = mkDnsStream (snd (stream_Read (stream ds) 4096)) (domain ds).
Proof.
  unfold dnsStream_Read.
  destruct (stream_Read (stream ds) 4096) as [[buf [e|]] s']; [reflexivity|].
  destruct (Unpack buf) as [msg|e]; [|reflexivity].
  destruct (ParseResponseData msg) as [data|e]; reflexivity.
Qed.

Lemma serverDNSStream_Read_state (ds : serverDNSStream) (p : bytes) :
  snd (serverDNSStream_Read Unpack ds p)
  = mkServerDNSStream (snd (stream_Read (server_stream ds) 4096))
      (server_domain ds).
Proof.
  unfold serverDNSStream_Read.
  destruct (stream_Read (server_stream ds) 4096) as [[buf [e|]] s'];
    [reflexivity|].
  destruct (Unpack buf) as [msg|e]; [|reflexivity].
  destruct (ParseQueryData msg (server_domain ds)) as [data|e]; reflexivity.
Qed.

Lemma dnsStream_Read_unpack_error (ds : dnsStream) (p buf : bytes) (e : error) :
  fst (stream_Read (stream ds) 4096) = (buf, None) ->
  Unpack buf = Err e ->
  fst (dnsStream_Read Unpack ds p)
  = mkIO p 0 (Some (Errorf "failed to parse DNS response: %w" [ArgErr e])).
Proof.
  unfold dnsStream_Read.
  destruct (stream_Read (stream ds) 4096) as [[buf' err] s']. simpl.
  intros [= -> ->] ->. reflexivity.
Qed.

Lemma serverDNSStream_Read_unpack_error (ds : serverDNSStream) (p buf : bytes)
    (e : error) :
  fst (stream_Read (server_stream ds) 4096) = (buf, None) ->
  Unpack buf = Err e ->
  fst (serverDNSStream_Read Unpack ds p)
  = mkIO p 0 (Some (Errorf "failed to parse DNS query: %w" [ArgErr e])).
Proof.
  unfold serverDNSStream_Read.
  destruct (stream_Read (server_stream ds) 4096) as [[buf' err] s']. simpl.
  intros [= -> ->] ->. reflexivity.
Qed.

Lemma dnsStream_Read_data (ds : dnsStream) (p buf : bytes) (msg : Dns.Msg)
    (data : bytes) :
  fst (stream_Read (stream ds) 4096) = (buf, None) ->
  Unpack buf = Ok msg ->
  ParseResponseData msg = Ok data ->
  fst (dnsStream_Read Unpack ds p)
  = mkIO (fst (copy p data)) (snd (copy p data)) None.
Proof.
  unfold dnsStream_Read.
  destruct (stream_Read (stream ds) 4096) as [[buf' err] s']. simpl.
  intros [= -> ->] -> ->. reflexivity.
Qed.

Lemma serverDNSStream_Read_data (ds : serverDNSStream) (p buf : bytes)
    (msg : Dns.Msg) (data : bytes) :
  fst (stream_Read (server_stream ds) 4096) = (buf, None) ->
  Unpack buf = Ok msg ->
  ParseQueryData msg (server_domain ds) = Ok data ->
  fst (serverDNSStream_Read Unpack ds p)
  = mkIO (fst (copy p data)) (snd (copy p data)) None.
Proof.
  unfold serverDNSStream_Read.
  destruct (stream_Read (server_stream ds) 4096) as [[buf' err] s']. simpl.
  intros [= -> ->] -> ->. reflexivity.
Qed.

End Adapters.


(** *** A message that arrives in two reads *)

(** The response carrying "hello" arrives as 20 bytes, then 52 bytes.  The
    client read hands the first 20 bytes to the deserializer, fails, and
    leaves the other 52 bytes on the substrate. *)
Example client_Read_partial_message :
  let c1 := firstn 20 helloResponseWire in
  let c2 := skipn 20 helloResponseWire in
  Wire.Unpack (c1 ++ c2) = Ok helloResponseMsg
  /\ ParseResponseData helloResponseMsg = Ok (lit "hello")
  /\ dnsStream_Read Wire.Unpack (mkDnsStream (arriving [c1; c2]) tunnelDomain)
       (repeat x00 16)
     = (mkIO (repeat x00 16) 0
          (Some (Errorf "failed to parse DNS response: %w"
                   [ArgErr (UnpackError "buffer size too small")])),
        mkDnsStream (arriving [c2]) tunnelDomain).
Proof. vm_compute. repeat split. Qed.

(** The same for the server read, on the query carrying "hello". *)
Example server_Read_partial_message :
  let c1 := firstn 20 helloQueryWire in
  let c2 := skipn 20 helloQueryWire in
  Wire.Unpack (c1 ++ c2) = Ok helloQueryMsg
  /\ ParseQueryData helloQueryMsg tunnelDomain = Ok (lit "hello")
  /\ serverDNSStream_Read Wire.Unpack
       (mkServerDNSStream (arriving [c1; c2]) tunnelDomain) (repeat x00 16)
     = (mkIO (repeat x00 16) 0
          (Some (Errorf "failed to parse DNS query: %w"
                   [ArgErr (UnpackError "buffer size too small")])),
        mkServerDNSStream (arriving [c2]) tunnelDomain).
Proof. vm_compute. repeat split. Qed.

(** C4 as stated fails for both adapters.  Input: the 72-byte response
    carrying "hello" (identifier 4660, domain "tunnel.example.com") arrives
    as its first 20 bytes, then the other 52; the caller's buffer has 16
    bytes.  The whole message deserializes and carries "hello", the first
    20 bytes alone do not; yet the read returns a parse error, not the
    payload.  The server fails the same way on the query carrying
    "hello". *)
Lemma C4_counterexample :
  ~ clientAccumulates Wire.Unpack /\ ~ serverAccumulates Wire.Unpack.
Proof.
  split; intros H.
  - specialize (H (firstn 20 helloResponseWire) (skipn 20 helloResponseWire)
                  tunnelDomain (repeat x00 16) helloResponseMsg (lit "hello")).
    assert (E : fst (dnsStream_Read Wire.Unpack
                       (mkDnsStream
                          (arriving [firstn 20 helloResponseWire;
                                     skipn 20 helloResponseWire])
                          tunnelDomain) (repeat x00 16))
                = mkIO (fst (copy (repeat x00 16) (lit "hello")))
                    (snd (copy (repeat x00 16) (lit "hello"))) None).
    { apply H.
      - vm_compute. lia.
      - intros m. vm_compute. discriminate.
      - vm_compute. reflexivity.
      - vm_compute. reflexivity. }
    vm_compute in E. discriminate E.
  - specialize (H (firstn 20 helloQueryWire) (skipn 20 helloQueryWire)
                  tunnelDomain (repeat x00 16) helloQueryMsg (lit "hello")).
    assert (E : fst (serverDNSStream_Read Wire.Unpack
                       (mkServerDNSStream
                          (arriving [firstn 20 helloQueryWire;
                                     skipn 20 helloQueryWire])
                          tunnelDomain) (repeat x00 16))
                = mkIO (fst (copy (repeat x00 16) (lit "hello")))
                    (snd (copy (repeat x00 16) (lit "hello"))) None).
    { apply H.
      - vm_compute. lia.
      - intros m. vm_compute. discriminate.
      - vm_compute. reflexivity.
      - vm_compute. reflexivity. }
    vm_compute in E. discriminate E.
Qed.

(** C4, as the code has it: one call of an adapter read makes exactly one
    substrate read into a 4096-byte buffer and hands the bytes of that read
    to the deserializer as one message.  When they do not deserialize, as
    with the first part of a message, the read fails with the parse error;
    whatever else was on its way stays on the substrate. *)
Theorem C4_Read_one_substrate_read {S : Type} {quic : QuicStream S}
    (Unpack : bytes -> result Dns.Msg)
    (ds : dnsStream) (sds : serverDNSStream) (p buf sbuf : bytes)
    (e se : error) :
  fst (stream_Read (stream ds) 4096) = (buf, None) ->
  Unpack buf = Err e ->
  fst (stream_Read (server_stream sds) 4096) = (sbuf, None) ->
  Unpack sbuf = Err se ->
  dnsStream_Read Unpack ds p
  = (mkIO p 0 (Some (Errorf "failed to parse DNS response: %w" [ArgErr e])),
     mkDnsStream (snd (stream_Read (stream ds) 4096)) (domain ds))
  /\ serverDNSStream_Read Unpack sds p
     = (mkIO p 0 (Some (Errorf "failed to parse DNS query: %w" [ArgErr se])),
        mkServerDNSStream (snd (stream_Read (server_stream sds) 4096))
          (server_domain sds)).
Proof.
  intros Hr Hu Hsr Hsu. split.
  - rewrite (surjective_pairing (dnsStream_Read Unpack ds p)).
    now rewrite dnsStream_Read_state,
      (dnsStream_Read_unpack_error Unpack ds p buf e Hr Hu).
  - rewrite (surjective_pairing (serverDNSStream_Read Unpack sds p)).
    now rewrite serverDNSStream_Read_state,
      (serverDNSStream_Read_unpack_error Unpack sds p sbuf se Hsr Hsu).
Qed.

Lemma C4_witness :
  let c1 := firstn 20 helloResponseWire in
  let c2 := skipn 20 helloResponseWire in
  let s1 := firstn 20 helloQueryWire in
  let s2 := skipn 20 helloQueryWire in
  let ds := mkDnsStream (arriving [c1; c2]) tunnelDomain in
  let sds := mkServerDNSStream (arriving [s1; s2]) tunnelDomain in
  let e := UnpackError "buffer size too small" in
  fst (stream_Read (stream ds) 4096) = (c1, None)
  /\ Wire.Unpack c1 = Err e
  /\ fst (stream_Read (server_stream sds) 4096) = (s1, None)
  /\ Wire.Unpack s1 = Err e
  /\ dnsStream_Read Wire.Unpack ds (repeat x00 16)
     = (mkIO (repeat x00 16) 0
          (Some (Errorf "failed to parse DNS response: %w" [ArgErr e])),
        mkDnsStream (snd (stream_Read (stream ds) 4096)) (domain ds))
  /\ serverDNSStream_Read Wire.Unpack sds (repeat x00 16)
     = (mkIO (repeat x00 16) 0
          (Some (Errorf "failed to parse DNS query: %w" [ArgErr e])),
        mkServerDNSStream (snd (stream_Read (server_stream sds) 4096))
          (server_domain sds)).
Proof.
  intros c1 c2 s1 s2 ds sds e.
  assert (H1 : fst (stream_Read (stream ds) 4096) = (c1, None))
    by (vm_compute; reflexivity).
  assert (H2 : Wire.Unpack c1 = Err e) by (vm_compute; reflexivity).
  assert (H3 : fst (stream_Read (server_stream sds) 4096) = (s1, None))
    by (vm_compute; reflexivity).
  assert (H4 : Wire.Unpack s1 = Err e) by (vm_compute; reflexivity).
  split; [exact H1|]. split; [exact H2|]. split; [exact H3|].
  split; [exact H4|].
  exact (C4_Read_one_substrate_read Wire.Unpack ds sds (repeat x00 16)
           c1 s1 e e H1 H2 H3 H4).
Defined.

(** ** A payload longer than the caller's buffer *)



(** ** BiDirectionalCopy *)

Import BiDirectionalCopy.

Ltac relay_cases :=
  repeat match goal with
    | H : exists _, _ |- _ => destruct H
    | H : _ /\ _ |- _ => destruct H
    | H : _ \/ _ |- _ => destruct H
    | H : _ :: _ = _ :: _ |- _ => injection H as ? ?
    | H : _ :: _ = [] |- _ => discriminate H
    | H : [] = _ :: _ |- _ => discriminate H
    | H : AwaitSecond _ = AwaitSecond _ |- _ => injection H as ?
    | H : Returned _ = Returned _ |- _ => injection H as ?
    end;
  subst; simpl in *; try discriminate; try lia.

Section RelayProofs.
Variables res_a_b res_b_a : option error.

Lemma relay_step_invariant (st st' : state) :
  invariant res_a_b res_b_a st ->
  step res_a_b res_b_a st st' ->
  invariant res_a_b res_b_a st'.
Proof.
  intros I Hs.
  destruct Hs as [st Hc Hl | st Hc Hl | st err1 q Hm Hq | st err1 err2 q Hm Hq];
    destruct st as [cab cba ch m];
    unfold invariant, sentSoFar in *; simpl in *; subst.
  - destruct m, cba; relay_cases; auto.
  - destruct m, cab; relay_cases; auto.
  - exact I.
  - exists err1, err2. destruct cab, cba; relay_cases; auto.
Qed.

Lemma relay_invariant (st : state) :
  reachable res_a_b res_b_a st -> invariant res_a_b res_b_a st.
Proof.
  induction 1 as [|st st' _ IH Hs].
  - reflexivity.
  - exact (relay_step_invariant st st' IH Hs).
Qed.

(** When both copiers deliver, the caller can return. *)
Lemma relay_can_return :
  reachable res_a_b res_b_a (finished res_a_b res_b_a).
Proof.
  pose (s1 := mkState Sent Copying [res_a_b] AwaitFirst).
  pose (s2 := mkState Sent Sent [res_a_b; res_b_a] AwaitFirst).
  pose (s3 := mkState Sent Sent [res_b_a] (AwaitSecond res_a_b)).
  pose (s4 := finished res_a_b res_b_a).
  assert (R1 : reachable res_a_b res_b_a s1).
  { apply (reach_step _ _ init s1);
      [apply reach_init|].
    apply (step_send_a_b _ _ init);
      simpl; [reflexivity | lia]. }
  assert (R2 : reachable res_a_b res_b_a s2).
  { apply (reach_step _ _ s1 s2 R1).
    apply (step_send_b_a _ _ s1); simpl; [reflexivity | lia]. }
  assert (R3 : reachable res_a_b res_b_a s3).
  { apply (reach_step _ _ s2 s3 R2).
    apply (step_recv_first _ _ s2 res_a_b [res_b_a]); reflexivity. }
  apply (reach_step _ _ s3 s4 R3).
  apply (step_recv_second _ _ s3 res_a_b res_b_a []); reflexivity.
Qed.

Lemma firstNonEOF_both_end (err1 err2 : option error) :
  endOfInput err1 = true -> endOfInput err2 = true ->
  firstNonEOF err1 err2 = None.
Proof.
  unfold firstNonEOF, endOfInput.
  destruct err1 as [e1|], err2 as [e2|]; intros H1 H2;
    rewrite ?H1, ?H2; reflexivity.
Qed.

Lemma firstNonEOF_left (e : error) (err2 : option error) :
  isEOF e = false -> firstNonEOF (Some e) err2 = Some e.
Proof.
  unfold firstNonEOF. now intros ->.
Qed.

Lemma firstNonEOF_right (err1 : option error) (e : error) :
  endOfInput err1 = true -> isEOF e = false ->
  firstNonEOF err1 (Some e) = Some e.
Proof.
  unfold firstNonEOF, endOfInput.
  destruct err1 as [e1|]; intros H1 H2; rewrite ?H1, ?H2; reflexivity.
Qed.

End RelayProofs.

(** C8: in every run of [BiDirectionalCopy] that has returned, both copy
    directions have sent their result; the value returned is no error
    when both ended with end of input, and is the one error that is not
    end of input when exactly one direction has such an error.  A run
    that returns exists whenever both directions deliver. *)
Theorem C8_BiDirectionalCopy (res_a_b res_b_a ret : option error)
    (st : state) :
  reachable res_a_b res_b_a st ->
  main st = Returned ret ->
  (copy_a_b st = Sent
   /\ copy_b_a st = Sent)
  /\ (endOfInput res_a_b = true -> endOfInput res_b_a = true -> ret = None)
  /\ (forall e, res_a_b = Some e -> isEOF e = false ->
       endOfInput res_b_a = true -> ret = Some e)
  /\ (forall e, res_b_a = Some e -> isEOF e = false ->
       endOfInput res_a_b = true -> ret = Some e)
  /\ reachable res_a_b res_b_a (finished res_a_b res_b_a).
Proof.
  intros Hr Hm.
  pose proof (relay_invariant res_a_b res_b_a st Hr) as I.
  unfold invariant, sentSoFar in I. rewrite Hm in I.
  destruct I as (err1 & err2 & Hs & _ & ->).
  assert (Hboth : copy_a_b st = Sent
                  /\ copy_b_a st = Sent
                  /\ ((err1 = res_a_b /\ err2 = res_b_a)
                      \/ (err1 = res_b_a /\ err2 = res_a_b))).
  { destruct (copy_a_b st), (copy_b_a st); relay_cases; auto. }
  destruct Hboth as (Ha & Hb & Horder).
  split; [now split|].
  split; [|split; [|split]].
  - intros E1 E2. destruct Horder as [[-> ->]|[-> ->]];
      now apply firstNonEOF_both_end.
  - intros e -> He E2. destruct Horder as [[-> ->]|[-> ->]].
    + now apply firstNonEOF_left.
    + now apply firstNonEOF_right.
  - intros e -> He E1. destruct Horder as [[-> ->]|[-> ->]].
    + now apply firstNonEOF_right.
    + now apply firstNonEOF_left.
  - apply relay_can_return.
Qed.

Lemma C8_witness :
  let reset := TransportError "connection reset" in
  let st := finished None (Some reset) in
  reachable None (Some reset) st
  /\ main st = Returned (Some reset)
  /\ copy_a_b st = Sent
  /\ copy_b_a st = Sent.
Proof.
  intros reset st.
  assert (Hr : reachable None (Some reset) st)
    by apply relay_can_return.
  assert (Hm : main st = Returned (Some reset)) by reflexivity.
  split; [exact Hr|]. split; [exact Hm|].
  exact (proj1 (C8_BiDirectionalCopy None (Some reset) (Some reset) st Hr Hm)).
Defined.

(** * Further properties of the code *)

(** ** pkg/dns/encoding.go: names *)

Lemma CreateFQDN_rooted (subdomain domain : gostring) :
  Strings.HasSuffix (CreateFQDN subdomain domain) [dot] = true.
Proof.
  unfold CreateFQDN. destruct subdomain as [|c sub].
  - apply HasSuffix_app.
  - replace ((c :: sub) ++ [dot] ++ domain ++ [dot])
      with (((c :: sub) ++ [dot] ++ domain) ++ [dot])
      by (now rewrite <- !app_assoc).
    apply HasSuffix_app.
Qed.

(** X1: for a domain written without the root dot, [ExtractSubdomain]
    gives back the subdomain [CreateFQDN] was built from, whatever the
    subdomain is (empty, or with dots of its own), and the name built ends
    in the root dot. *)
Theorem X1_ExtractSubdomain_CreateFQDN (subdomain domain : gostring) :
  unrooted domain = true ->
  ExtractSubdomain (CreateFQDN subdomain domain) domain = Ok subdomain
  /\ Strings.HasSuffix (CreateFQDN subdomain domain) [dot] = true.
Proof.
  intros H. split.
  - now apply ExtractSubdomain_CreateFQDN.
  - apply CreateFQDN_rooted.
Qed.

Lemma X1_witness :
  unrooted (lit "tunnel.example.com") = true
  /\ ExtractSubdomain (CreateFQDN (lit "ab.cd") (lit "tunnel.example.com"))
       (lit "tunnel.example.com")
     = Ok (lit "ab.cd").
Proof.
  assert (H : unrooted (lit "tunnel.example.com") = true) by reflexivity.
  exact (conj H (proj1 (X1_ExtractSubdomain_CreateFQDN (lit "ab.cd")
                          (lit "tunnel.example.com") H))).
Defined.

(** X2: when [ExtractSubdomain] succeeds, the name (less one trailing dot)
    is the domain itself and the subdomain is empty, or it is the
    subdomain, a dot, and the domain (less one trailing dot). *)
Theorem X2_ExtractSubdomain_sound (fqdn domain sub : gostring) :
  ExtractSubdomain fqdn domain = Ok sub ->
  let f := Strings.TrimSuffix fqdn [dot] in
  let d := Strings.TrimSuffix domain [dot] in
  (f = d /\ sub = []) \/ (f <> d /\ f = sub ++ [dot] ++ d).
Proof.
  intros H f d. unfold ExtractSubdomain in H. fold f d in H.
  destruct (bytes_eqb f d) eqn:E.
  - rewrite andb_false_r in H. injection H as <-.
    left. split; [now apply bytes_eqb_eq | reflexivity].
  - rewrite andb_true_r in H.
    destruct (Strings.HasSuffix f ([dot] ++ d)) eqn:Hs; [|discriminate].
    simpl in H. injection H as <-.
    right. split.
    + intros Efd. rewrite Efd, bytes_eqb_refl in E. discriminate.
    + destruct (HasSuffix_true _ _ Hs) as [a Ha].
      rewrite Ha at 1. now rewrite Ha, TrimSuffix_app.
Qed.

Lemma X2_witness :
  ExtractSubdomain (lit "nbuq.tunnel.example.com.") (lit "tunnel.example.com")
  = Ok (lit "nbuq")
  /\ lit "nbuq.tunnel.example.com"
     = lit "nbuq" ++ [dot] ++ lit "tunnel.example.com".
Proof.
  assert (H : ExtractSubdomain (lit "nbuq.tunnel.example.com.")
                (lit "tunnel.example.com") = Ok (lit "nbuq")) by reflexivity.
  split; [exact H|].
  destruct (X2_ExtractSubdomain_sound _ _ _ H) as [[E _]|[_ E]].
  - discriminate E.
  - exact E.
Defined.

(** X3: a name that is neither the domain nor something, a dot and the
    domain is rejected with an error; sharing the last characters with
    the domain is not enough. *)
Theorem X3_ExtractSubdomain_rejects (fqdn domain : gostring) :
  let f := Strings.TrimSuffix fqdn [dot] in
  let d := Strings.TrimSuffix domain [dot] in
  f <> d ->
  (forall s, f <> s ++ [dot] ++ d) ->
  ExtractSubdomain fqdn domain
  = Err (Errorf "FQDN %s does not match domain %s" [ArgStr f; ArgStr d]).
Proof.
  intros f d Hne Hs. unfold ExtractSubdomain. fold f d.
  destruct (bytes_eqb f d) eqn:E.
  - apply bytes_eqb_eq in E. contradiction.
  - destruct (Strings.HasSuffix f ([dot] ++ d)) eqn:Hsuf; [|reflexivity].
    destruct (HasSuffix_true _ _ Hsuf) as [a Ha]. now apply Hs in Ha.
Qed.

Lemma X3_witness :
  ExtractSubdomain (lit "evilexample.com") (lit "example.com")
  = Err (Errorf "FQDN %s does not match domain %s"
           [ArgStr (lit "evilexample.com"); ArgStr (lit "example.com")]).
Proof.
  apply (X3_ExtractSubdomain_rejects (lit "evilexample.com") (lit "example.com")).
  - discriminate.
  - intros s E.
    assert (H : Strings.HasSuffix
                  (Strings.TrimSuffix (lit "evilexample.com") [dot])
                  ([dot] ++ Strings.TrimSuffix (lit "example.com") [dot])
                = true)
      by (rewrite E; apply HasSuffix_app).
    vm_compute in H. discriminate H.
Defined.

(** ** pkg/dns/encoding.go: what DecodeSubdomain accepts *)

Lemma ToUpper_map (s : gostring) : Strings.ToUpper s = map upperByte s.
Proof. reflexivity. Qed.

Lemma ToLower_map (s : gostring) : Strings.ToLower s = map lowerByte s.
Proof. reflexivity. Qed.

Lemma upperByte_lowerByte (c : byte) : upperByte (lowerByte c) = upperByte c.
Proof. destruct c; reflexivity. Qed.

Lemma upperByte_idem (c : byte) : upperByte (upperByte c) = upperByte c.
Proof. destruct c; reflexivity. Qed.

Lemma lowerByte_dot (c : byte) : byte_eqb (lowerByte c) dot = byte_eqb c dot.
Proof. destruct c; reflexivity. Qed.

Lemma upperByte_dot (c : byte) : byte_eqb (upperByte c) dot = byte_eqb c dot.
Proof. destruct c; reflexivity. Qed.

Lemma ReplaceAll_dot_map (f : byte -> byte) (s : gostring) :
  (forall c, byte_eqb (f c) dot = byte_eqb c dot) ->
  Strings.ReplaceAll (map f s) dot [] = map f (Strings.ReplaceAll s dot []).
Proof.
  intros Hf. induction s as [|c s IH]; [reflexivity|].
  simpl. rewrite Hf. destruct (byte_eqb c dot); simpl; now rewrite IH.
Qed.

Lemma DecodeSubdomain_ToLower (s : gostring) :
  DecodeSubdomain (Strings.ToLower s) = DecodeSubdomain s.
Proof.
  unfold DecodeSubdomain.
  rewrite ToLower_map, (ReplaceAll_dot_map lowerByte s lowerByte_dot).
  rewrite !ToUpper_map, map_map.
  now rewrite (map_ext _ _ upperByte_lowerByte).
Qed.

Lemma DecodeSubdomain_ToUpper (s : gostring) :
  DecodeSubdomain (Strings.ToUpper s) = DecodeSubdomain s.
Proof.
  unfold DecodeSubdomain.
  rewrite (ToUpper_map s), (ReplaceAll_dot_map upperByte s upperByte_dot).
  rewrite !ToUpper_map, map_map.
  now rewrite (map_ext _ _ upperByte_idem).
Qed.

Lemma ReplaceAll_remove_idem (s : gostring) :
  Strings.ReplaceAll (Strings.ReplaceAll s dot []) dot []
  = Strings.ReplaceAll s dot [].
Proof.
  induction s as [|c s IH]; [reflexivity|].
  simpl. destruct (byte_eqb c dot) eqn:E; simpl; [exact IH|].
  now rewrite E, IH.
Qed.

(** X4: on an ASCII string, [DecodeSubdomain] does not depend on the case
    of the letters nor on where the dots are: the upper-cased string, the
    lower-cased string and the string with its dots removed decode like
    the string itself, payload or error alike. *)
Theorem X4_DecodeSubdomain_case_and_dots (s : gostring) :
  isASCII s = true ->
  DecodeSubdomain (Strings.ToUpper s) = DecodeSubdomain s
  /\ DecodeSubdomain (Strings.ToLower s) = DecodeSubdomain s
  /\ DecodeSubdomain (Strings.ReplaceAll s dot []) = DecodeSubdomain s.
Proof.
  intros _.
  split; [apply DecodeSubdomain_ToUpper|].
  split; [apply DecodeSubdomain_ToLower|].
  unfold DecodeSubdomain. now rewrite ReplaceAll_remove_idem.
Qed.

Lemma X4_witness :
  isASCII (lit "NB.uq") = true
  /\ DecodeSubdomain (Strings.ToLower (lit "NB.uq")) = Ok (lit "hi")
  /\ DecodeSubdomain (lit "NB.uq") = Ok (lit "hi").
Proof.
  assert (H : isASCII (lit "NB.uq") = true) by reflexivity.
  split; [exact H|].
  destruct (X4_DecodeSubdomain_case_and_dots (lit "NB.uq") H) as (_ & E & _).
  split; [rewrite E|]; reflexivity.
Defined.

Lemma firstCorrupt_None (src : list byte) (off : Z) :
  Base32.firstCorrupt src off = None
  <-> Forall (fun c => Base32.decodeMap c <> 255) src.
Proof.
  revert off. induction src as [|c src IH]; intros off; simpl.
  - split; [constructor | reflexivity].
  - destruct (Z.eqb_spec (Base32.decodeMap c) 255) as [E|E].
    + split; [discriminate|]. intros H. inversion H. contradiction.
    + rewrite IH. split; [now constructor | intros H; now inversion H].
Qed.

Lemma firstCorrupt_Some_range (src : list byte) (off k : Z) :
  Base32.firstCorrupt src off = Some k ->
  off <= k < off + Z.of_nat (length src).
Proof.
  revert off. induction src as [|c src IH]; intros off; simpl; [discriminate|].
  destruct (Base32.decodeMap c =? 255).
  - intros [= <-]. lia.
  - intros H. apply IH in H. lia.
Qed.

Lemma normalized_flat_map (s : gostring) :
  Base32.stripNewlines (Strings.ToUpper (Strings.ReplaceAll s dot []))
  = flat_map
      (fun c => Base32.stripNewlines
                  (Strings.ToUpper (Strings.ReplaceAll [c] dot [])))
      s.
Proof.
  induction s as [|c s IH]; [reflexivity|].
  cbn [flat_map]. rewrite <- IH.
  change (c :: s) with ([c] ++ s). rewrite ReplaceAll_app.
  unfold Base32.stripNewlines, Strings.ToUpper.
  now rewrite map_app, filter_app.
Qed.

Lemma forallb_flat_map {A B} (P : B -> bool) (f : A -> list B) (l : list A) :
  forallb P (flat_map f l) = forallb (fun x => forallb P (f x)) l.
Proof.
  induction l as [|x l IH]; [reflexivity|].
  simpl. now rewrite forallb_app, IH.
Qed.

Lemma decodableChar_normalized (c : byte) :
  forallb (fun x => negb (Base32.decodeMap x =? 255))
    (Base32.stripNewlines (Strings.ToUpper (Strings.ReplaceAll [c] dot [])))
  = decodableChar c.
Proof. destruct c; reflexivity. Qed.

Lemma decodable_normalized (s : gostring) :
  Forall (fun c => Base32.decodeMap c <> 255)
    (Base32.stripNewlines
       (Strings.ToUpper (Strings.ReplaceAll s dot [])))
  <-> Forall (fun c => decodableChar c = true) s.
Proof.
  rewrite normalized_flat_map.
  induction s as [|c s IH]; [split; constructor|].
  cbn [flat_map]. rewrite Forall_app, IH, Forall_cons_iff.
  rewrite <- (decodableChar_normalized c), forallb_forall, Forall_forall.
  split; intros [H1 H2]; (split; [|exact H2]); intros x Hx.
  - apply negb_true_iff, Z.eqb_neq. now apply H1.
  - specialize (H1 x Hx). now apply negb_true_iff, Z.eqb_neq in H1.
Qed.

(** X5: on an ASCII string, [DecodeSubdomain] returns a payload exactly
    when every character is a dot, a line break, or a base32 character in
    either case.  Otherwise it returns the error that wraps
    [CorruptInputError] with an offset inside the string. *)
Theorem X5_DecodeSubdomain_accepts (s : gostring) :
  isASCII s = true ->
  ((exists data, DecodeSubdomain s = Ok data)
   <-> Forall (fun c => decodableChar c = true) s)
  /\ (forall e, DecodeSubdomain s = Err e ->
      exists off,
        0 <= off < Z.of_nat (length s)
        /\ e = Errorf "failed to decode base32: %w"
                 [ArgErr (CorruptInputError off)]).
Proof.
  intros _.
  unfold DecodeSubdomain, Base32.DecodeString. split.
  - rewrite <- decodable_normalized, <- (firstCorrupt_None _ 0).
    destruct (Base32.firstCorrupt _ 0) as [off|].
    + split; [intros [data H]; discriminate | discriminate].
    + split; [reflexivity | intros _; eexists; reflexivity].
  - intros e.
    destruct (Base32.firstCorrupt _ 0) as [off|] eqn:E; [|discriminate].
    intros [= <-]. exists off. split; [|reflexivity].
    apply firstCorrupt_Some_range in E.
    assert (Hlen : (length (Base32.stripNewlines
                              (Strings.ToUpper (Strings.ReplaceAll s dot [])))
                    <= length s)%nat).
    { unfold Base32.stripNewlines. etransitivity; [apply filter_length_le|].
      rewrite ToUpper_map, length_map.
      clear E. induction s as [|c s IH]; [simpl; lia|].
      simpl. destruct (byte_eqb c dot); simpl; lia. }
    lia.
Qed.

Lemma X5_witness :
  isASCII (lit "nb1q") = true
  /\ ~ (exists data, DecodeSubdomain (lit "nb1q") = Ok data)
  /\ DecodeSubdomain (lit "nb1q")
     = Err (Errorf "failed to decode base32: %w" [ArgErr (CorruptInputError 2)]).
Proof.
  assert (H : isASCII (lit "nb1q") = true) by reflexivity.
  split; [exact H|]. split; [|reflexivity].
  intros Hd.
  apply (proj1 (X5_DecodeSubdomain_accepts (lit "nb1q") H)) in Hd.
  inversion Hd as [|? ? _ Hd1]; subst.
  inversion Hd1 as [|? ? _ Hd2]; subst.
  inversion Hd2 as [|? ? Hc _]; subst.
  discriminate Hc.
Defined.

(** ** pkg/dns/encoding.go: the shape of an encoded subdomain *)

Lemma Join_Forall (P : byte -> Prop) (ls : list gostring) (sep : gostring) :
  Forall P sep -> Forall (Forall P) ls -> Forall P (Strings.Join ls sep).
Proof.
  intros Hsep H. induction H as [|l ls Hl Hls IH]; [constructor|].
  destruct ls as [|l' ls]; [exact Hl|].
  change (Strings.Join (l :: l' :: ls) sep)
    with (l ++ sep ++ Strings.Join (l' :: ls) sep).
  rewrite !Forall_app. auto.
Qed.

Lemma ToLower_encoded_chars (ds : list Z) :
  Forall (fun c => subdomainChar c = true)
    (Strings.ToLower (map Base32.encodeChar ds)).
Proof.
  unfold Strings.ToLower. rewrite map_map. apply Forall_map.
  apply Forall_forall. intros d _.
  exact (alphabet_forallb (fun c => subdomainChar (lowerByte c)) d eq_refl).
Qed.

(** X6: every character of an encoded subdomain is a lower-case letter, a
    digit from 2 to 7, or a dot. *)
Theorem X6_EncodeSubdomain_characters (p : bytes) :
  Forall (fun c => subdomainChar c = true) (EncodeSubdomain p).
Proof.
  destruct p as [|b p]; [constructor|].
  unfold EncodeSubdomain. apply Join_Forall.
  - now constructor.
  - apply splitLabels_Forall, ToLower_encoded_chars.
Qed.

Lemma base32Len_step (n : nat) : base32Len (5 + n) = (8 + base32Len n)%nat.
Proof.
  unfold base32Len.
  replace (8 * (5 + n) + 4)%nat with (8 * 5 + (8 * n + 4))%nat by lia.
  now rewrite (Nat.div_add_l 8 5) by lia.
Qed.

Lemma encodeDigits_length (src : list byte) :
  length (Base32.encodeDigits src) = base32Len (length src).
Proof.
  remember (length src) as n eqn:Hn. revert src Hn.
  induction n as [n IH] using lt_wf_ind. intros src Hn.
  destruct src as [|s0 [|s1 [|s2 [|s3 [|s4 rest]]]]];
    try (subst n; reflexivity).
  change (Base32.encodeDigits (s0 :: s1 :: s2 :: s3 :: s4 :: rest))
    with (Base32.unpack5 (u8 s0) (u8 s1) (u8 s2) (u8 s3) (u8 s4)
            ++ Base32.encodeDigits rest).
  rewrite length_app.
  rewrite (IH (length rest)) by (subst n; simpl; lia || reflexivity).
  subst n. change (length (s0 :: s1 :: s2 :: s3 :: s4 :: rest))
    with (5 + length rest)%nat.
  now rewrite base32Len_step.
Qed.

Lemma encoded_length (data : bytes) :
  length (Strings.ToLower (Base32.EncodeToString data))
  = base32Len (length data).
Proof.
  unfold Strings.ToLower, Base32.EncodeToString.
  rewrite !length_map. apply encodeDigits_length.
Qed.

Lemma pieceLengths_0 (size : nat) : (0 < size)%nat -> pieceLengths size 0 = [].
Proof.
  intros H. unfold pieceLengths.
  rewrite Nat.Div0.div_0_l, Nat.Div0.mod_0_l. reflexivity.
Qed.

Lemma pieceLengths_small (size n : nat) :
  (0 < n < size)%nat -> pieceLengths size n = [n].
Proof.
  intros H. unfold pieceLengths.
  rewrite Nat.div_small, Nat.mod_small by lia.
  destruct (Nat.eqb_spec n 0); [lia|reflexivity].
Qed.

Lemma pieceLengths_full (size n : nat) :
  (0 < size <= n)%nat ->
  pieceLengths size n = size :: pieceLengths size (n - size).
Proof.
  intros H.
  assert (Hd : (n / size = Datatypes.S ((n - size) / size))%nat).
  { replace n with (n - size + 1 * size)%nat at 1 by lia.
    rewrite Nat.div_add by lia. lia. }
  assert (Hm : (n mod size = (n - size) mod size)%nat).
  { replace n with (n - size + 1 * size)%nat at 1 by lia.
    now rewrite Nat.Div0.mod_add. }
  unfold pieceLengths. rewrite Hd, Hm. reflexivity.
Qed.

Lemma splitLabels_lengths (s : gostring) :
  map (@length byte) (splitLabels s) = pieceLengths 63 (length s).
Proof.
  funelim (splitLabels s); [reflexivity|].
  clear Heqcall. cbn [map]. rewrite H, length_firstn, length_skipn.
  unfold MaxLabelLength. simpl length.
  destruct (Nat.ltb_spec (Datatypes.S (length s)) 63) as [Hlt|Hge].
  - rewrite Nat.min_id, Nat.sub_diag, pieceLengths_0 by lia.
    now rewrite pieceLengths_small by lia.
  - rewrite Nat.min_l by lia.
    now rewrite (pieceLengths_full 63 (Datatypes.S (length s))) by lia.
Qed.

Lemma splitTxt_piece_lengths (data : bytes) :
  map (@length byte) (splitTxt data) = pieceLengths 255 (length data).
Proof.
  funelim (splitTxt data); [reflexivity|].
  clear Heqcall. cbn [map]. unfold string_of_bytes.
  rewrite H, length_firstn, length_skipn. simpl length.
  destruct (Nat.ltb_spec (Datatypes.S (length d)) 255) as [Hlt|Hge].
  - rewrite Nat.min_id, Nat.sub_diag, pieceLengths_0 by lia.
    now rewrite pieceLengths_small by lia.
  - rewrite Nat.min_l by lia.
    now rewrite (pieceLengths_full 255 (Datatypes.S (length d))) by lia.
Qed.

Lemma Join_length (ls : list gostring) (sep : gostring) :
  length (Strings.Join ls sep)
  = (list_sum (map (@length byte) ls) + (length ls - 1) * length sep)%nat.
Proof.
  induction ls as [|l ls IH]; [reflexivity|].
  destruct ls as [|l' ls]; [simpl; lia|].
  change (Strings.Join (l :: l' :: ls) sep)
    with (l ++ sep ++ Strings.Join (l' :: ls) sep).
  rewrite !length_app, IH. simpl. lia.
Qed.

Lemma pieceLengths_sum (size n : nat) :
  (0 < size)%nat -> list_sum (pieceLengths size n) = n.
Proof.
  intros H. unfold pieceLengths. rewrite list_sum_app.
  assert (E : list_sum (repeat size (n / size)) = (size * (n / size))%nat).
  { induction (n / size)%nat as [|k IH]; simpl; [lia|]. rewrite IH. lia. }
  rewrite E. pose proof (Nat.div_mod_eq n size).
  destruct (Nat.eqb_spec (n mod size) 0); simpl; lia.
Qed.

Lemma pieceLengths_count (size n : nat) :
  (0 < size)%nat -> (0 < n)%nat ->
  (length (pieceLengths size n) - 1 = (n - 1) / size)%nat.
Proof.
  intros Hs Hn. unfold pieceLengths. rewrite length_app, repeat_length.
  pose proof (Nat.div_mod_eq n size) as E.
  pose proof (Nat.mod_upper_bound n size ltac:(lia)) as Hm.
  destruct (Nat.eqb_spec (n mod size) 0) as [E0|E0]; cbn [length].
  - rewrite E0 in E. assert (Hq : (0 < n / size)%nat) by nia.
    replace (n - 1)%nat with ((size - 1) + (n / size - 1) * size)%nat by nia.
    rewrite Nat.div_add, (Nat.div_small (size - 1) size) by lia. lia.
  - replace (n - 1)%nat with ((n mod size - 1) + (n / size) * size)%nat by nia.
    rewrite Nat.div_add, (Nat.div_small (n mod size - 1) size) by lia. lia.
Qed.

Lemma EncodeSubdomain_length (p : bytes) :
  length (EncodeSubdomain p)
  = (base32Len (length p) + (base32Len (length p) - 1) / 63)%nat.
Proof.
  set (L := base32Len (length p)).
  destruct p as [|b p]; [reflexivity|].
  unfold EncodeSubdomain. rewrite Join_length.
  rewrite <- (length_map (@length byte) (splitLabels _)).
  rewrite splitLabels_lengths, encoded_length. fold L.
  assert (HL : (0 < L)%nat).
  { subst L. rewrite <- encoded_length.
    pose proof (encoded_nonempty (b :: p) ltac:(discriminate)) as Hne.
    destruct (Strings.ToLower _); [contradiction | simpl; lia]. }
  rewrite pieceLengths_sum, pieceLengths_count by lia. simpl. lia.
Qed.

Lemma CreateFQDN_length (p : bytes) (dom : gostring) :
  p <> [] ->
  length (CreateFQDN (EncodeSubdomain p) dom)
  = (base32Len (length p) + (base32Len (length p) - 1) / 63
     + length dom + 2)%nat.
Proof.
  intros Hp. pose proof (EncodeSubdomain_nonempty p Hp) as Hne.
  pose proof (EncodeSubdomain_length p) as E.
  unfold CreateFQDN. destruct (EncodeSubdomain p) eqn:Es; [contradiction|].
  rewrite !length_app, E. simpl. lia.
Qed.

(** X7: an encoded subdomain has [L + (L - 1) / 63] characters, where [L]
    is the number of base32 characters of the payload: one dot after each
    full run of 63 characters that is followed by more.  The name built
    from it adds a dot, the domain and the root dot. *)
Theorem X7_EncodeSubdomain_length (p : bytes) (domain : gostring) :
  let L := base32Len (length p) in
  length (EncodeSubdomain p) = (L + (L - 1) / 63)%nat
  /\ length (CreateFQDN (EncodeSubdomain p) domain)
     = match p with
       | [] => (length domain + 1)%nat
       | _ => (L + (L - 1) / 63 + length domain + 2)%nat
       end.
Proof.
  intros L. split; [apply EncodeSubdomain_length|].
  destruct p as [|b p].
  - unfold CreateFQDN. simpl. rewrite length_app. simpl. lia.
  - apply CreateFQDN_length. discriminate.
Qed.

(** X10: [CreateResponse] cuts the payload into TXT strings of exactly 255
    bytes, followed by one shorter string when the length is no multiple
    of 255. *)
Theorem X10_splitTxt_piece_lengths (p : bytes) :
  map (@length byte) (splitTxt p) = pieceLengths 255 (length p).
Proof. apply splitTxt_piece_lengths. Qed.

(** X11: the labels of an encoded subdomain have exactly 63 characters
    each, followed by one shorter label when the number of base32
    characters is no multiple of 63. *)
Theorem X11_EncodeSubdomain_label_lengths (p : bytes) :
  map (@length byte) (labels (EncodeSubdomain p))
  = pieceLengths 63 (base32Len (length p)).
Proof.
  rewrite labels_EncodeSubdomain, splitLabels_lengths.
  now rewrite encoded_length.
Qed.

(** ** pkg/dns/encoding.go: the budget against the encoder *)

(** X8: a payload with at least one byte and no more bytes than
    [CalculateMaxPayloadSize] allows encodes to no more base32 characters
    than the [253 - domainLen - 2] the function sets aside.  (The dots
    between labels, counted in X7, come on top.) *)
Theorem X8_budget_bounds_base32 (p : bytes) (domainLen : Z) :
  fitsInt domainLen ->
  p <> [] ->
  Z.of_nat (length p) <= CalculateMaxPayloadSize domainLen ->
  Z.of_nat (length (Base32.EncodeToString p))
  <= MaxDomainLength - domainLen - 2.
Proof.
  intros Hf Hp Hb.
  rewrite CalculateMaxPayloadSize_exact in Hb by assumption.
  unfold Base32.EncodeToString. rewrite length_map, encodeDigits_length.
  unfold base32Len. unfold MaxDomainLength in *.
  assert (Hn : (0 < length p)%nat) by (destruct p; [contradiction | simpl; lia]).
  set (A := 253 - domainLen - 2) in *.
  assert (HA : 0 <= A).
  { destruct (Z_lt_le_dec A 0) as [Hneg|]; [|assumption].
    assert (Z.quot (A * 5) 8 <= 0) by (apply Z.quot_le_upper_bound; lia).
    lia. }
  rewrite Z.quot_div_nonneg in Hb by lia.
  rewrite Nat2Z.inj_div, Nat2Z.inj_add, Nat2Z.inj_mul. simpl Z.of_nat.
  assert (H8 : 8 * Z.of_nat (length p) <= A * 5).
  { pose proof (Z.mul_div_le (A * 5) 8 ltac:(lia)). lia. }
  assert ((8 * Z.of_nat (length p) + 4) / 5 < A + 1)
    by (apply Z.div_lt_upper_bound; lia).
  lia.
Qed.

Lemma X8_witness :
  fitsInt 18
  /\ repeat x00 145 <> []
  /\ Z.of_nat (length (repeat x00 145)) <= CalculateMaxPayloadSize 18
  /\ Z.of_nat (length (Base32.EncodeToString (repeat x00 145)))
     <= MaxDomainLength - 18 - 2.
Proof.
  assert (H1 : fitsInt 18) by (unfold fitsInt, MaxDomainLength; lia).
  assert (H2 : repeat x00 145 <> []) by discriminate.
  assert (H3 : Z.of_nat (length (repeat x00 145)) <= CalculateMaxPayloadSize 18)
    by (vm_compute; discriminate).
  exact (conj H1 (conj H2 (conj H3
           (X8_budget_bounds_base32 (repeat x00 145) 18 H1 H2 H3)))).
Defined.

(** X9: the budget is positive exactly for domain names of at most 249
    characters, zero for 250 to 252 characters, and negative beyond. *)
Theorem X9_CalculateMaxPayloadSize_sign (domainLen : Z) :
  fitsInt domainLen ->
  (0 < CalculateMaxPayloadSize domainLen <-> domainLen <= 249)
  /\ (CalculateMaxPayloadSize domainLen < 0 <-> 253 <= domainLen).
Proof.
  intros Hf. rewrite CalculateMaxPayloadSize_exact by assumption.
  unfold MaxDomainLength.
  pose proof (Z.quot_rem' ((253 - domainLen - 2) * 5) 8) as E.
  pose proof (Z.rem_bound_abs ((253 - domainLen - 2) * 5) 8 ltac:(lia)) as Hr.
  destruct (Z_lt_le_dec ((253 - domainLen - 2) * 5) 0) as [Hneg|Hpos].
  - pose proof (Z.rem_nonpos ((253 - domainLen - 2) * 5) 8 ltac:(lia) ltac:(lia)).
    split; split; lia.
  - pose proof (Z.rem_nonneg ((253 - domainLen - 2) * 5) 8 ltac:(lia) ltac:(lia)).
    split; split; lia.
Qed.

Lemma X9_witness :
  fitsInt 250
  /\ ~ 0 < CalculateMaxPayloadSize 250
  /\ ~ CalculateMaxPayloadSize 250 < 0.
Proof.
  assert (H : fitsInt 250) by (unfold fitsInt, MaxDomainLength; lia).
  destruct (X9_CalculateMaxPayloadSize_sign 250 H) as [H1 H2].
  split; [exact H|]. split; intros Hc.
  - apply H1 in Hc. lia.
  - apply H2 in Hc. lia.
Defined.

(** ** pkg/dns/packet.go: what ParseQueryData accepts *)

(** X12: when [ParseQueryData] returns a payload, the message has exactly
    one question, of type TXT, whose name lies under the domain; the
    payload is empty when the name is the domain itself and is the decoded
    subdomain otherwise. *)
Theorem X12_ParseQueryData_sound (msg : Dns.Msg) (domain : gostring)
    (data : bytes) :
  ParseQueryData msg domain = Ok data ->
  exists question sub,
    Dns.Questions msg = [question]
    /\ Dns.Qtype question = Dns.TypeTXT
    /\ ExtractSubdomain (Dns.Q_Name question) domain = Ok sub
    /\ ((sub = [] /\ data = [])
        \/ (sub <> [] /\ DecodeSubdomain sub = Ok data)).
Proof.
  unfold ParseQueryData.
  destruct (Dns.Questions msg) as [|question [|q2 qs]]; try discriminate.
  destruct (Z.eqb_spec (Dns.Qtype question) Dns.TypeTXT) as [Ht|]; simpl;
    [|discriminate].
  destruct (ExtractSubdomain (Dns.Q_Name question) domain) as [sub|e] eqn:Es;
    [|discriminate].
  intros H. exists question, sub. repeat split; try assumption.
  destruct sub as [|c sub].
  - injection H as <-. now left.
  - right. split; [discriminate|].
    destruct (DecodeSubdomain (c :: sub)) as [d|e]; [|discriminate].
    now injection H as <-.
Qed.

Lemma X12_witness :
  exists question sub,
    Dns.Questions helloQueryMsg = [question]
    /\ Dns.Qtype question = Dns.TypeTXT
    /\ ExtractSubdomain (Dns.Q_Name question) tunnelDomain = Ok sub
    /\ ((sub = [] /\ lit "hello" = [])
        \/ (sub <> [] /\ DecodeSubdomain sub = Ok (lit "hello"))).
Proof.
  apply (X12_ParseQueryData_sound helloQueryMsg tunnelDomain (lit "hello")).
  vm_compute. reflexivity.
Defined.

(** X13: [ParseQueryData] rejects a message whose number of questions is
    not one, naming the number, and a single question that is not of type
    TXT, naming the type; neither reaches the decoder. *)
Theorem X13_ParseQueryData_rejects (msg : Dns.Msg) (domain : gostring) :
  (length (Dns.Questions msg) <> 1%nat ->
   ParseQueryData msg domain
   = Err (Errorf "expected exactly 1 question, got %d"
            [ArgInt (Z.of_nat (length (Dns.Questions msg)))]))
  /\ (forall question,
        Dns.Questions msg = [question] ->
        Dns.Qtype question <> Dns.TypeTXT ->
        ParseQueryData msg domain
        = Err (Errorf "expected TXT query, got type %d"
                 [ArgInt (Dns.Qtype question)])).
Proof.
  unfold ParseQueryData. split.
  - destruct (Dns.Questions msg) as [|question [|q2 qs]]; simpl;
      [reflexivity | contradiction | reflexivity].
  - intros question -> Ht.
    destruct (Z.eqb_spec (Dns.Qtype question) Dns.TypeTXT); [contradiction|].
    reflexivity.
Qed.

(** ** pkg/dns/packet.go: responses *)

(** X14: a response built by [CreateErrorResponse] parses to the empty
    payload when its code is NXDOMAIN or success (it has no answer), and
    to the error naming the code otherwise. *)
Theorem X14_ParseResponseData_CreateErrorResponse (query : Dns.Msg) (rcode : Z) :
  ParseResponseData (CreateErrorResponse query rcode)
  = if (rcode =? Dns.RcodeNameError) || (rcode =? Dns.RcodeSuccess)
    then Ok []
    else Err (Errorf "DNS response error: %s"
                [ArgStr (Dns.RcodeToString rcode)]).
Proof.
  unfold ParseResponseData, CreateErrorResponse.
  cbn [Dns.Rcode Dns.with_Rcode Dns.Answer Dns.SetReply Dns.newMsg].
  destruct (rcode =? Dns.RcodeNameError); [reflexivity|].
  destruct (rcode =? Dns.RcodeSuccess); reflexivity.
Qed.

(** X15: a message [CreateResponse] returns is marked as a response and
    carries the identifier of the query and its first question only.  Its
    answers are TXT records of class Internet with a TTL of 60 seconds.
    With a payload it carries the last OPT record of the query, if there
    is one; the NXDOMAIN message for the empty payload carries none. *)
Theorem X15_CreateResponse_header (query msg : Dns.Msg) (data : bytes) :
  CreateResponse query data = Some msg ->
  Dns.Id msg = Dns.Id query
  /\ Dns.Response msg = true
  /\ Dns.Questions msg = firstn 1 (Dns.Questions query)
  /\ Forall (fun rr =>
               Dns.Rrtype (Dns.Header rr) = Dns.TypeTXT
               /\ Dns.Class (Dns.Header rr) = Dns.ClassINET
               /\ Dns.Ttl (Dns.Header rr) = 60)
       (Dns.Answer msg)
  /\ Dns.Extra msg
     = match data, Dns.IsEdns0 query with
       | _ :: _, Some opt => [opt]
       | _, _ => []
       end.
Proof.
  unfold CreateResponse. destruct data as [|b data].
  - intros [= <-]. cbn. repeat split; try constructor.
  - destruct (Dns.Questions query) as [|question0 rest] eqn:Hq; [discriminate|].
    destruct (Dns.IsEdns0 query) as [opt|]; intros [= <-]; cbn; rewrite Hq;
      repeat split; repeat constructor.
Qed.

Lemma X15_witness :
  exists msg,
    CreateResponse helloQueryMsg (lit "hello") = Some msg
    /\ Dns.Id msg = 4660
    /\ Dns.Questions msg = Dns.Questions helloQueryMsg
    /\ length (Dns.Extra msg) = 1%nat.
Proof.
  destruct (CreateResponse helloQueryMsg (lit "hello")) as [msg|] eqn:E;
    [|vm_compute in E; discriminate E].
  exists msg. split; [reflexivity|].
  destruct (X15_CreateResponse_header helloQueryMsg msg (lit "hello") E)
    as (H1 & _ & H3 & _ & H5).
  rewrite H1, H3, H5. vm_compute. repeat split.
Defined.

(** X16: the query [CreateQuery] builds has one question, of type TXT and
    class Internet, asks for recursion, and carries one OPT record that
    advertises a UDP size of 1232; a response with a payload built for it
    carries that same OPT record and names its TXT record after the
    question. *)
Theorem X16_CreateQuery_shape (id : Z) (data : bytes) (domain : gostring)
    (p : bytes) :
  p <> [] ->
  exists query opt resp,
    CreateQuery id data domain = Ok query
    /\ Dns.Questions query
       = [Dns.mkQuestion (CreateFQDN (EncodeSubdomain data) domain)
            Dns.TypeTXT Dns.ClassINET]
    /\ Dns.RecursionDesired query = true
    /\ Dns.Extra query = [opt]
    /\ Dns.Rrtype (Dns.Header opt) = Dns.TypeOPT
    /\ Dns.Class (Dns.Header opt) = 1232
    /\ CreateResponse query p = Some resp
    /\ Dns.Extra resp = [opt]
    /\ Dns.RecursionDesired resp = true
    /\ map (fun rr => Dns.Name (Dns.Header rr)) (Dns.Answer resp)
       = [CreateFQDN (EncodeSubdomain data) domain].
Proof.
  intros Hp. destruct p as [|b p]; [contradiction|].
  do 3 eexists. repeat split.
Qed.

Lemma X16_witness :
  lit "hello" <> []
  /\ exists query opt resp,
       CreateQuery 4660 (lit "hi") tunnelDomain = Ok query
       /\ Dns.Extra query = [opt]
       /\ CreateResponse query (lit "hello") = Some resp
       /\ Dns.Extra resp = [opt].
Proof.
  assert (Hp : lit "hello" <> []) by discriminate.
  split; [exact Hp|].
  destruct (X16_CreateQuery_shape 4660 (lit "hi") tunnelDomain (lit "hello") Hp)
    as (query & opt & resp & H1 & _ & _ & H4 & _ & _ & H7 & H8 & _).
  exists query, opt, resp. repeat split; assumption.
Defined.

(** ** pkg/transport: what a read and a write hand back *)

Lemma copy_spec (dst src : bytes) :
  let r := copy dst src in
  (snd r <= length dst)%nat
  /\ (snd r <= length src)%nat
  /\ length (fst r) = length dst
  /\ firstn (snd r) (fst r) = firstn (snd r) src
  /\ skipn (snd r) (fst r) = skipn (snd r) dst.
Proof.
  unfold copy. cbn [fst snd].
  set (n := Nat.min (length dst) (length src)).
  assert (Hn : length (firstn n src) = n)
    by (rewrite length_firstn; subst n; lia).
  split; [subst n; lia|]. split; [subst n; lia|]. split; [|split].
  - rewrite length_app, Hn, length_skipn. subst n. lia.
  - rewrite firstn_app, Hn, Nat.sub_diag. simpl. rewrite app_nil_r.
    rewrite <- Hn at 1. apply firstn_all.
  - rewrite skipn_app, Hn, Nat.sub_diag. simpl.
    rewrite <- Hn at 1. now rewrite skipn_all.
Qed.

Section ReadWrite.
Context {S : Type} {quic : QuicStream S}.
Variable Unpack : bytes -> result Dns.Msg.
Variable Pack : Dns.Msg -> result bytes.

Lemma copy_outcome (p data : bytes) :
  readOutcome p (mkIO (fst (copy p data)) (snd (copy p data)) None).
Proof.
  destruct (copy_spec p data) as (H1 & _ & H3 & _ & H5).
  unfold readOutcome. cbn [io_err io_n io_buf]. auto.
Qed.

Lemma dnsStream_Read_outcome (ds : dnsStream) (p : bytes) :
  readOutcome p (fst (dnsStream_Read Unpack ds p))
  /\ (io_err (fst (dnsStream_Read Unpack ds p)) = Some EOF
      <-> snd (fst (stream_Read (stream ds) 4096)) = Some EOF).
Proof.
  unfold dnsStream_Read.
  destruct (stream_Read (stream ds) 4096) as [[buf [e|]] s']; cbn [fst snd].
  - split; [now split | reflexivity].
  - destruct (Unpack buf) as [msg|e]; cbn [fst].
    + destruct (ParseResponseData msg) as [data|e]; cbn [fst].
      * rewrite (surjective_pairing (copy p data)). cbn [fst].
        split; [apply copy_outcome | split; discriminate].
      * split; [now split | split; discriminate].
    + split; [now split | split; discriminate].
Qed.

Lemma serverDNSStream_Read_outcome (ds : serverDNSStream) (p : bytes) :
  readOutcome p (fst (serverDNSStream_Read Unpack ds p))
  /\ (io_err (fst (serverDNSStream_Read Unpack ds p)) = Some EOF
      <-> snd (fst (stream_Read (server_stream ds) 4096)) = Some EOF).
Proof.
  unfold serverDNSStream_Read.
  destruct (stream_Read (server_stream ds) 4096) as [[buf [e|]] s'];
    cbn [fst snd].
  - split; [now split | reflexivity].
  - destruct (Unpack buf) as [msg|e]; cbn [fst].
    + destruct (ParseQueryData msg (server_domain ds)) as [data|e]; cbn [fst].
      * rewrite (surjective_pairing (copy p data)). cbn [fst].
        split; [apply copy_outcome | split; discriminate].
      * split; [now split | split; discriminate].
    + split; [now split | split; discriminate].
Qed.

Lemma dnsStream_Write_outcome (id : Z) (ds : dnsStream) (p : bytes) :
  writeOutcome p (fst (dnsStream_Write Pack id ds p)).
Proof.
  unfold dnsStream_Write, writeOutcome. cbn [CreateQuery].
  destruct (Pack _) as [packed|e]; cbn [fst].
  - destruct (stream_Write (stream ds) packed) as [[k [e|]] s']; cbn;
      (split; [reflexivity|]); [right | left]; split; congruence.
  - cbn. split; [reflexivity|]. right. split; congruence.
Qed.

Lemma serverDNSStream_Write_outcome (id : Z) (ds : serverDNSStream) (p : bytes) :
  exists r ds',
    serverDNSStream_Write Pack id ds p = Some (r, ds')
    /\ writeOutcome p r.
Proof.
  unfold serverDNSStream_Write, writeOutcome.
  destruct (CreateResponse (dummyQuery id (server_domain ds)) p) as [msg|] eqn:E.
  - destruct (Pack msg) as [packed|e].
    + destruct (stream_Write (server_stream ds) packed) as [[k [e|]] s'];
        do 2 eexists; (split; [reflexivity|]); cbn;
        (split; [reflexivity|]); [right | left]; split; congruence.
    + do 2 eexists. split; [reflexivity|]. cbn.
      split; [reflexivity|]. right. split; congruence.
  - exfalso. destruct p as [|b p]; [discriminate E|].
    destruct (CreateResponse_nonempty (dummyQuery id (server_domain ds))
                (Dns.mkQuestion (CreateFQDN [] (server_domain ds)) Dns.TypeTXT
                   Dns.ClassINET) [] (b :: p))
      as (msg & Hc & _); [discriminate | reflexivity |].
    congruence.
Qed.

End ReadWrite.

(** X17: a read of either adapter returns an error with count 0 and the
    caller's buffer untouched, or no error with a count that fits the
    buffer, whose length and bytes past the count are unchanged.  The
    error is [io.EOF] exactly when the substrate read returned [io.EOF]:
    parse and codec errors are wrapped and never read as end of input. *)
Theorem X17_Read_outcome {S : Type} {quic : QuicStream S}
    (Unpack : bytes -> result Dns.Msg)
    (ds : dnsStream) (sds : serverDNSStream) (p : bytes) :
  (readOutcome p (fst (dnsStream_Read Unpack ds p))
   /\ (io_err (fst (dnsStream_Read Unpack ds p)) = Some EOF
       <-> snd (fst (stream_Read (stream ds) 4096)) = Some EOF))
  /\ (readOutcome p (fst (serverDNSStream_Read Unpack sds p))
      /\ (io_err (fst (serverDNSStream_Read Unpack sds p)) = Some EOF
          <-> snd (fst (stream_Read (server_stream sds) 4096)) = Some EOF)).
Proof.
  split; [apply dnsStream_Read_outcome | apply serverDNSStream_Read_outcome].
Qed.

(** X18: a write of either adapter reports the whole payload written with
    no error, or reports 0 bytes with an error, never a count in between;
    the server write always returns (it does not fail inside
    [CreateResponse]). *)
Theorem X18_Write_outcome {S : Type} {quic : QuicStream S}
    (Pack : Dns.Msg -> result bytes) (id : Z)
    (ds : dnsStream) (sds : serverDNSStream) (p : bytes) :
  writeOutcome p (fst (dnsStream_Write Pack id ds p))
  /\ exists r sds',
       serverDNSStream_Write Pack id sds p = Some (r, sds')
       /\ writeOutcome p r.
Proof.
  split; [apply dnsStream_Write_outcome | apply serverDNSStream_Write_outcome].
Qed.

(** ** pkg/transport: from one adapter to the other *)

Lemma ParseQueryData_questions (m1 m2 : Dns.Msg) (domain : gostring) :
  Dns.Questions m1 = Dns.Questions m2 ->
  ParseQueryData m1 domain = ParseQueryData m2 domain.
Proof. unfold ParseQueryData. now intros ->. Qed.

Lemma ParseResponseData_content (m1 m2 : Dns.Msg) :
  Dns.Rcode m1 = Dns.Rcode m2 ->
  txtData (Dns.Answer m1) = txtData (Dns.Answer m2) ->
  ParseResponseData m1 = ParseResponseData m2.
Proof. unfold ParseResponseData. now intros -> ->. Qed.

Lemma script_Read_whole (w : bytes) (rest : list (bytes * option error))
    (out : list bytes) :
  (length w <= 4096)%nat ->
  stream_Read (mkScript ((w, None) :: rest) out) 4096
  = ((w, None), mkScript rest out).
Proof.
  intros H. cbn. unfold script_Read. cbn [pending written].
  destruct (Nat.leb_spec (length w) 4096); [reflexivity | lia].
Qed.

Lemma ParseQueryData_CreateQuery (id : Z) (p : bytes) (dom : gostring)
    (query : Dns.Msg) :
  unrooted dom = true ->
  CreateQuery id p dom = Ok query ->
  ParseQueryData query dom = Ok p.
Proof.
  intros Hd [= <-].
  unfold ParseQueryData.
  cbn [Dns.Questions Dns.with_Extra Dns.with_RecursionDesired
       Dns.SetQuestion Dns.Qtype Dns.Q_Name].
  rewrite Z.eqb_refl. cbn [negb].
  rewrite ExtractSubdomain_CreateFQDN by assumption.
  destruct p as [|b p]; [reflexivity|].
  pose proof (EncodeSubdomain_nonempty (b :: p)) as Hne.
  destruct (EncodeSubdomain (b :: p)) eqn:E; [now exfalso; apply Hne|].
  rewrite <- E. now rewrite DecodeSubdomain_EncodeSubdomain.
Qed.

(** X19: the client writes payload [p] on a fresh substrate and the bytes
    it wrote arrive at the server in one read.  If the wire codec packs
    the query into at most 4096 bytes and unpacks them to a message with
    the same questions, and the domain has no root dot, the write reports
    [len(p)] bytes, puts exactly one message on the substrate, and the
    server read copies [p] into the caller's buffer. *)
Theorem X19_client_Write_server_Read
    (Pack : Dns.Msg -> result bytes) (Unpack : bytes -> result Dns.Msg)
    (id : Z) (dom : gostring) (p buf w : bytes) (query msg' : Dns.Msg) :
  unrooted dom = true ->
  CreateQuery id p dom = Ok query ->
  Pack query = Ok w ->
  (length w <= 4096)%nat ->
  Unpack w = Ok msg' ->
  Dns.Questions msg' = Dns.Questions query ->
  let sent := dnsStream_Write Pack id (mkDnsStream (mkScript [] []) dom) p in
  fst sent = mkIO p (length p) None
  /\ written (stream (snd sent)) = [w]
  /\ fst (serverDNSStream_Read Unpack
            (mkServerDNSStream (arriving (written (stream (snd sent)))) dom)
            buf)
     = mkIO (fst (copy buf p)) (snd (copy buf p)) None.
Proof.
  intros Hd Hq Hp Hl Hu Hqs sent.
  assert (Es : sent = (mkIO p (length p) None,
                       mkDnsStream (mkScript [] [w]) dom)).
  { subst sent. unfold dnsStream_Write. cbn [domain]. rewrite Hq, Hp.
    reflexivity. }
  rewrite Es. cbn [fst snd stream written].
  split; [reflexivity|]. split; [reflexivity|].
  apply (serverDNSStream_Read_data Unpack _ buf w msg' p).
  - unfold arriving. cbn [map server_stream].
    now rewrite script_Read_whole.
  - exact Hu.
  - cbn [server_domain].
    rewrite (ParseQueryData_questions msg' query dom Hqs).
    now apply (ParseQueryData_CreateQuery id).
Qed.

Lemma X19_witness :
  exists query msg',
    unrooted tunnelDomain = true
    /\ CreateQuery 4660 (lit "hello") tunnelDomain = Ok query
    /\ Wire.Pack query = Ok helloQueryWire
    /\ Wire.Unpack helloQueryWire = Ok msg'
    /\ Dns.Questions msg' = Dns.Questions query
    /\ fst (serverDNSStream_Read Wire.Unpack
              (mkServerDNSStream
                 (arriving
                    (written
                       (stream
                          (snd (dnsStream_Write Wire.Pack 4660
                                  (mkDnsStream (mkScript [] []) tunnelDomain)
                                  (lit "hello"))))))
                 tunnelDomain)
              (repeat x00 8))
       = mkIO (lit "hello" ++ repeat x00 3) 5 None.
Proof.
  destruct (CreateQuery 4660 (lit "hello") tunnelDomain) as [query|e] eqn:Hq;
    [|discriminate Hq].
  exists query, helloQueryMsg.
  assert (Hd : unrooted tunnelDomain = true) by reflexivity.
  assert (Hp : Wire.Pack query = Ok helloQueryWire)
    by (injection Hq as <-; vm_compute; reflexivity).
  assert (Hl : (length helloQueryWire <= 4096)%nat) by (vm_compute; lia).
  assert (Hu : Wire.Unpack helloQueryWire = Ok helloQueryMsg)
    by (vm_compute; reflexivity).
  assert (Hqs : Dns.Questions helloQueryMsg = Dns.Questions query)
    by (injection Hq as <-; vm_compute; reflexivity).
  exact (conj Hd (conj eq_refl (conj Hp (conj Hu (conj Hqs
           (proj2 (proj2 (X19_client_Write_server_Read Wire.Pack Wire.Unpack
                            4660 tunnelDomain (lit "hello") (repeat x00 8)
                            helloQueryWire query helloQueryMsg
                            Hd Hq Hp Hl Hu Hqs)))))))).
Defined.

Lemma ParseResponseData_CreateResponse (query resp : Dns.Msg) (p : bytes) :
  CreateResponse query p = Some resp -> ParseResponseData resp = Ok p.
Proof.
  destruct p as [|b p].
  - rewrite CreateResponse_empty. now intros [= <-].
  - intros H.
    destruct (Dns.Questions query) as [|question0 rest] eqn:Hq.
    + rewrite CreateResponse_no_question in H by (discriminate || assumption).
      discriminate H.
    + destruct (CreateResponse_nonempty query question0 rest (b :: p))
        as (msg & Hc & Hr & Ha); [discriminate | exact Hq |].
      rewrite H in Hc. injection Hc as <-.
      unfold ParseResponseData. rewrite Hr, Ha.
      cbn [Z.eqb negb Dns.RcodeSuccess Dns.RcodeNameError].
      now rewrite txtData_single.
Qed.

(** X20: the server writes payload [p] on a fresh substrate and the bytes
    it wrote arrive at the client in one read.  If the wire codec packs
    the response into at most 4096 bytes and unpacks them to a message
    with the same code and the same TXT content, the write reports
    [len(p)] bytes, puts exactly one message on the substrate, and the
    client read copies [p] into the caller's buffer; for the empty payload
    it returns 0 bytes and no error. *)
Theorem X20_server_Write_client_Read
    (Pack : Dns.Msg -> result bytes) (Unpack : bytes -> result Dns.Msg)
    (id : Z) (dom : gostring) (p buf w : bytes) (resp msg' : Dns.Msg) :
  CreateResponse (dummyQuery id dom) p = Some resp ->
  Pack resp = Ok w ->
  (length w <= 4096)%nat ->
  Unpack w = Ok msg' ->
  Dns.Rcode msg' = Dns.Rcode resp ->
  txtData (Dns.Answer msg') = txtData (Dns.Answer resp) ->
  exists sds',
    serverDNSStream_Write Pack id (mkServerDNSStream (mkScript [] []) dom) p
    = Some (mkIO p (length p) None, sds')
    /\ written (server_stream sds') = [w]
    /\ fst (dnsStream_Read Unpack
              (mkDnsStream (arriving (written (server_stream sds'))) dom) buf)
       = mkIO (fst (copy buf p)) (snd (copy buf p)) None
    /\ (p = [] ->
        fst (dnsStream_Read Unpack
               (mkDnsStream (arriving (written (server_stream sds'))) dom) buf)
        = mkIO buf 0 None).
Proof.
  intros Hc Hp Hl Hu Hr Ht.
  exists (mkServerDNSStream (mkScript [] [w]) dom).
  assert (Hread :
            fst (dnsStream_Read Unpack (mkDnsStream (arriving [w]) dom) buf)
            = mkIO (fst (copy buf p)) (snd (copy buf p)) None).
  { apply (dnsStream_Read_data Unpack _ buf w msg' p).
    - unfold arriving. cbn [map stream]. now rewrite script_Read_whole.
    - exact Hu.
    - rewrite (ParseResponseData_content msg' resp Hr Ht).
      now apply (ParseResponseData_CreateResponse (dummyQuery id dom)). }
  split; [|split; [reflexivity|split]].
  - unfold serverDNSStream_Write. cbn [server_domain]. rewrite Hc, Hp.
    reflexivity.
  - exact Hread.
  - intros ->. cbn [server_stream written]. rewrite Hread.
    unfold copy. cbn [length fst snd firstn]. rewrite Nat.min_0_r.
    reflexivity.
Qed.

Lemma X20_witness :
  exists resp sds',
    CreateResponse (dummyQuery 4660 tunnelDomain) (lit "hello") = Some resp
    /\ Wire.Pack resp = Ok helloResponseWire
    /\ Wire.Unpack helloResponseWire = Ok helloResponseMsg
    /\ serverDNSStream_Write Wire.Pack 4660
         (mkServerDNSStream (mkScript [] []) tunnelDomain) (lit "hello")
       = Some (mkIO (lit "hello") 5 None, sds')
    /\ fst (dnsStream_Read Wire.Unpack
              (mkDnsStream (arriving (written (server_stream sds')))
                 tunnelDomain)
              (repeat x00 8))
       = mkIO (lit "hello" ++ repeat x00 3) 5 None.
Proof.
  destruct (CreateResponse (dummyQuery 4660 tunnelDomain) (lit "hello"))
    as [resp|] eqn:Hc; [|vm_compute in Hc; discriminate Hc].
  assert (Hp : Wire.Pack resp = Ok helloResponseWire)
    by (vm_compute in Hc; injection Hc as <-; vm_compute; reflexivity).
  assert (Hl : (length helloResponseWire <= 4096)%nat) by (vm_compute; lia).
  assert (Hu : Wire.Unpack helloResponseWire = Ok helloResponseMsg)
    by (vm_compute; reflexivity).
  assert (Hr : Dns.Rcode helloResponseMsg = Dns.Rcode resp)
    by (vm_compute in Hc; injection Hc as <-; vm_compute; reflexivity).
  assert (Ht : txtData (Dns.Answer helloResponseMsg)
               = txtData (Dns.Answer resp))
    by (vm_compute in Hc; injection Hc as <-; vm_compute; reflexivity).
  destruct (X20_server_Write_client_Read Wire.Pack Wire.Unpack 4660
              tunnelDomain (lit "hello") (repeat x00 8) helloResponseWire
              resp helloResponseMsg Hc Hp Hl Hu Hr Ht)
    as (sds' & Hw & _ & Hread & _).
  exists resp, sds'. repeat split; assumption.
Defined.

(** ** pkg/proxy/proxy.go: more on BiDirectionalCopy *)

Section RelayMore.
Variables res_a_b res_b_a : option error.

(** The run in which [copy(b, a)] sends first. *)
Lemma relay_can_return_swapped :
  reachable res_a_b res_b_a
    (mkState Sent Sent [] (Returned (firstNonEOF res_b_a res_a_b))).
Proof.
  pose (s1 := mkState Copying Sent [res_b_a] AwaitFirst).
  pose (s2 := mkState Sent Sent [res_b_a; res_a_b] AwaitFirst).
  pose (s3 := mkState Sent Sent [res_a_b] (AwaitSecond res_b_a)).
  pose (s4 := mkState Sent Sent [] (Returned (firstNonEOF res_b_a res_a_b))).
  assert (R1 : reachable res_a_b res_b_a s1).
  { apply (reach_step _ _ init s1); [apply reach_init|].
    apply (step_send_b_a _ _ init); simpl; [reflexivity | lia]. }
  assert (R2 : reachable res_a_b res_b_a s2).
  { apply (reach_step _ _ s1 s2 R1).
    apply (step_send_a_b _ _ s1); simpl; [reflexivity | lia]. }
  assert (R3 : reachable res_a_b res_b_a s3).
  { apply (reach_step _ _ s2 s3 R2).
    apply (step_recv_first _ _ s2 res_b_a [res_a_b]); reflexivity. }
  apply (reach_step _ _ s3 s4 R3).
  apply (step_recv_second _ _ s3 res_b_a res_a_b []); reflexivity.
Qed.

Lemma relay_returned (st : state) (ret : option error) :
  reachable res_a_b res_b_a st ->
  main st = Returned ret ->
  ret = firstNonEOF res_a_b res_b_a \/ ret = firstNonEOF res_b_a res_a_b.
Proof.
  intros Hr Hm.
  pose proof (relay_invariant res_a_b res_b_a st Hr) as I.
  unfold invariant, sentSoFar in I. rewrite Hm in I.
  destruct I as (err1 & err2 & Hs & _ & ->).
  destruct (copy_a_b st), (copy_b_a st); relay_cases; auto.
Qed.

Lemma firstNonEOF_result (err1 err2 : option error) :
  firstNonEOF err1 err2 = None
  \/ exists e,
       firstNonEOF err1 err2 = Some e
       /\ isEOF e = false
       /\ (err1 = Some e \/ err2 = Some e).
Proof.
  unfold firstNonEOF.
  destruct err1 as [e1|], err2 as [e2|];
    try destruct (isEOF e1) eqn:E1; try destruct (isEOF e2) eqn:E2;
    simpl; eauto 6.
Qed.


End RelayMore.

(** X21: when both copy directions end with an error that is not end of
    input, [BiDirectionalCopy] returns one of the two, and each of the two
    is returned by some run: the one received first wins. *)
Theorem X21_BiDirectionalCopy_two_errors (e1 e2 : error) :
  isEOF e1 = false ->
  isEOF e2 = false ->
  (forall st ret,
      reachable (Some e1) (Some e2) st ->
      main st = Returned ret ->
      ret = Some e1 \/ ret = Some e2)
  /\ (exists st,
        reachable (Some e1) (Some e2) st /\ main st = Returned (Some e1))
  /\ (exists st,
        reachable (Some e1) (Some e2) st /\ main st = Returned (Some e2)).
Proof.
  intros H1 H2. split; [|split].
  - intros st ret Hr Hm.
    destruct (relay_returned _ _ st ret Hr Hm) as [-> | ->];
      rewrite firstNonEOF_left by assumption; auto.
  - exists (finished (Some e1) (Some e2)). split; [apply relay_can_return|].
    unfold finished. cbn [main]. now rewrite firstNonEOF_left.
  - eexists. split; [apply relay_can_return_swapped|].
    cbn [main]. now rewrite firstNonEOF_left.
Qed.

Lemma X21_witness :
  let e1 := TransportError "connection reset" in
  let e2 := TransportError "broken pipe" in
  isEOF e1 = false
  /\ isEOF e2 = false
  /\ (exists st,
        reachable (Some e1) (Some e2) st /\ main st = Returned (Some e1))
  /\ (exists st,
        reachable (Some e1) (Some e2) st /\ main st = Returned (Some e2)).
Proof.
  intros e1 e2.
  assert (H1 : isEOF e1 = false) by reflexivity.
  assert (H2 : isEOF e2 = false) by reflexivity.
  exact (conj H1 (conj H2
           (proj2 (X21_BiDirectionalCopy_two_errors e1 e2 H1 H2)))).
Defined.

(** X22: whatever the two copy directions return, [BiDirectionalCopy]
    returns no error or one of their two errors, and never [io.EOF]. *)
Theorem X22_BiDirectionalCopy_result (res_a_b res_b_a ret : option error)
    (st : state) :
  reachable res_a_b res_b_a st ->
  main st = Returned ret ->
  ret = None
  \/ exists e,
       ret = Some e
       /\ isEOF e = false
       /\ (res_a_b = Some e \/ res_b_a = Some e).
Proof.
  intros Hr Hm.
  destruct (relay_returned _ _ st ret Hr Hm) as [-> | ->].
  - apply firstNonEOF_result.
  - destruct (firstNonEOF_result res_b_a res_a_b)
      as [H | (e & H & He & Hor)]; [now left|].
    right. exists e. tauto.
Qed.

Lemma X22_witness :
  let st := finished (Some EOF) None in
  reachable (Some EOF) None st
  /\ main st = Returned None.
Proof.
  intros st.
  assert (Hr : reachable (Some EOF) None st) by apply relay_can_return.
  assert (Hm : main st = Returned None) by reflexivity.
  split; [exact Hr|].
  destruct (X22_BiDirectionalCopy_result (Some EOF) None None st Hr Hm)
    as [_ | (e & He & _)]; [exact Hm | discriminate He].
Defined.



(** ** The handlers: what is closed, and how often *)

(** X24: on the server, a stream handled by [Server.handleStream] with
    [ServerProxy.HandleStream] is closed twice, on every path: once by the
    handler through the adapter and once by [handleStream] itself.  The
    target connection is closed once when the dial succeeded; when it
    failed there is none, the relay does not run, and the error names the
    target. *)
Theorem X24_server_closes
    (dial : gostring -> result CountingConn)
    (relay : @serverDNSStream CountingStream -> CountingConn ->
             option error * (@serverDNSStream CountingStream * CountingConn))
    (targetAddr dom : gostring) (s0 : CountingStream) :
  serverRelayKeepsCounts relay ->
  let '(final, out, log) :=
    handleStream (HandleStream dial relay targetAddr) dom s0 in
  cs_closes final = (cs_closes s0 + 2)%nat
  /\ match dial targetAddr with
     | Ok conn =>
         exists conn',
           so_conn out = Some conn'
           /\ cc_closes conn' = Datatypes.S (cc_closes conn)
           /\ (so_err out = None
               <-> fst (relay (mkServerDNSStream s0 dom) conn) = None)
     | Err err =>
         so_conn out = None
         /\ cs_script final = cs_script s0
         /\ so_err out
            = Some (Errorf "failed to connect to target %s: %w"
                      [ArgStr targetAddr; ArgErr err])
     end.
Proof.
  intros Hk. unfold handleStream, HandleStream.
  destruct (dial targetAddr) as [conn|err].
  - specialize (Hk (mkServerDNSStream s0 dom) conn).
    destruct (relay (mkServerDNSStream s0 dom) conn) as [err [s1 c1]].
    cbn in Hk |- *. destruct Hk as [Hs Hc].
    split; [lia|]. eexists. split; [reflexivity|]. split; [cbn; lia|].
    destruct err; split; congruence.
  - cbn. split; [lia|]. repeat split.
Qed.

Lemma X24_witness :
  let dial := fun addr : gostring => Ok (mkCountingConn addr 0) in
  let relay :=
    fun (ds : @serverDNSStream CountingStream) (conn : CountingConn) =>
      (Some EOF, (ds, conn)) in
  let s0 := mkCounting (arriving [helloQueryWire]) 0 in
  serverRelayKeepsCounts relay
  /\ cs_closes
       (fst (fst (handleStream (HandleStream dial relay (lit "localhost:8000"))
                    tunnelDomain s0)))
     = 2%nat.
Proof.
  intros dial relay s0.
  assert (Hk : serverRelayKeepsCounts relay) by (intros ds conn; now split).
  split; [exact Hk|].
  pose proof (X24_server_closes dial relay (lit "localhost:8000") tunnelDomain
                s0 Hk) as H.
  destruct (handleStream (HandleStream dial relay (lit "localhost:8000"))
              tunnelDomain s0) as [[final out] log].
  exact (proj1 H).
Defined.

(** X25: [TCPProxy.handleConnection] closes the TCP connection once and
    marks the wait group done once, on every path.  When [OpenStream]
    fails (as it does on a client that is not connected) no stream exists
    and the relay does not run; when it succeeds the stream is closed
    once, after the relay. *)
Theorem X25_client_closes {C : Type}
    {qconn : QuicConnection C CountingStream}
    (relay : CountingConn -> @dnsStream CountingStream ->
             option error * (CountingConn * @dnsStream CountingStream))
    (client : @Client C) (wg : Z) (conn : CountingConn) :
  clientRelayKeepsCounts relay ->
  let out := handleConnection relay client wg conn in
  cc_closes (co_conn out) = Datatypes.S (cc_closes conn)
  /\ co_wg out = wg - 1
  /\ co_client out = snd (Client_OpenStream client)
  /\ match fst (Client_OpenStream client) with
     | Ok st =>
         exists st',
           co_stream out = Some st'
           /\ cs_closes (stream st') = Datatypes.S (cs_closes (stream st))
     | Err err =>
         co_stream out = None
         /\ co_conn out = snd (net_Close conn)
         /\ In ("Failed to open stream: %v"%string, [ArgErr err]) (co_log out)
     end
  /\ (client_conn client = None ->
      co_stream out = None
      /\ In ("Failed to open stream: %v"%string,
             [ArgErr (Errorf "not connected to server" [])])
           (co_log out)).
Proof.
  intros Hk out. subst out. unfold handleConnection.
  assert (Hnone : client_conn client = None ->
                  Client_OpenStream client
                  = (Err (Errorf "not connected to server" []), client)).
  { unfold Client_OpenStream. now intros ->. }
  destruct (Client_OpenStream client) as [[st|err] client'] eqn:Eo.
  - specialize (Hk conn st).
    destruct (relay conn st) as [err [c1 s1]]. cbn in Hk |- *.
    destruct Hk as [Hc Hs].
    split; [lia|]. split; [reflexivity|]. split; [reflexivity|].
    split.
    + eexists. split; [reflexivity|]. cbn. lia.
    + intros Hn. apply Hnone in Hn. discriminate Hn.
  - cbn. split; [reflexivity|]. split; [reflexivity|]. split; [reflexivity|].
    split.
    + split; [reflexivity|]. split; [reflexivity|]. right. now left.
    + intros Hn. apply Hnone in Hn. injection Hn as <- <-.
      split; [reflexivity|]. right. now left.
Qed.

Lemma X25_witness :
  let relay :=
    fun (conn : CountingConn) (ds : @dnsStream CountingStream) =>
      (@None error, (conn, ds)) in
  let conn := mkCountingConn (lit "127.0.0.1:50000") 0 in
  let out :=
    handleConnection relay
      (NewClient (C := option CountingStream) (lit "server:4443") tunnelDomain)
      1 conn in
  clientRelayKeepsCounts relay
  /\ cc_closes (co_conn out) = 1%nat
  /\ co_wg out = 0
  /\ co_stream out = None.
Proof.
  intros relay conn out.
  assert (Hk : clientRelayKeepsCounts relay) by (intros c ds; now split).
  destruct (X25_client_closes relay
              (NewClient (C := option CountingStream) (lit "server:4443")
                 tunnelDomain) 1 conn Hk)
    as (H1 & H2 & _ & _ & H5).
  split; [exact Hk|]. split; [exact H1|]. split; [exact H2|].
  exact (proj1 (H5 eq_refl)).
Defined.

(** ** Distinct payloads, distinct names *)

(** X26: [EncodeSubdomain] is injective, and so is the question name of
    the query under a domain written without the root dot: two payloads
    with the same name are the same payload. *)
Theorem X26_names_injective (p q : bytes) (dom : gostring) :
  unrooted dom = true ->
  (EncodeSubdomain p = EncodeSubdomain q -> p = q)
  /\ (CreateFQDN (EncodeSubdomain p) dom = CreateFQDN (EncodeSubdomain q) dom ->
      p = q).
Proof.
  intros Hd.
  assert (Hinj : EncodeSubdomain p = EncodeSubdomain q -> p = q).
  { intros E.
    pose proof (DecodeSubdomain_EncodeSubdomain p) as Hp.
    rewrite E, DecodeSubdomain_EncodeSubdomain in Hp. congruence. }
  split; [exact Hinj|].
  intros E. apply Hinj.
  pose proof (ExtractSubdomain_CreateFQDN (EncodeSubdomain p) dom Hd) as Hp.
  rewrite E, ExtractSubdomain_CreateFQDN in Hp by assumption. congruence.
Qed.

Lemma X26_witness :
  unrooted tunnelDomain = true
  /\ (EncodeSubdomain (lit "hi") = EncodeSubdomain (lit "hi") ->
      lit "hi" = lit "hi").
Proof.
  assert (H : unrooted tunnelDomain = true) by reflexivity.
  exact (conj H (proj1 (X26_names_injective (lit "hi") (lit "hi")
                          tunnelDomain H))).
Defined.

(** ** pkg/transport/client.go: a client and its connection *)

(** X27: a new client is not connected: [OpenStream] fails with "not
    connected to server" and [Close] returns no error and changes
    nothing.  A [Connect] whose dial fails leaves the client as it was.
    After a [Connect] whose dial succeeds, a stream the connection opens
    comes back wrapped in an adapter with the client's domain. *)
Theorem X27_Client_lifecycle {C S : Type} {qconn : QuicConnection C S}
    {quic : QuicStream S}
    (dialAddr : gostring -> result C) (addr dom : gostring) :
  let c := NewClient (C := C) addr dom in
  fst (Client_OpenStream (S := S) c)
  = Err (Errorf "not connected to server" [])
  /\ Client_Close (S := S) c = (None, c)
  /\ (forall err,
        dialAddr addr = Err err ->
        Client_Connect dialAddr c
        = (Some (Errorf "failed to connect to server: %w" [ArgErr err]), c, []))
  /\ (forall conn st conn',
        dialAddr addr = Ok conn ->
        conn_OpenStreamSync conn = (Ok st, conn') ->
        fst (Client_OpenStream (snd (fst (Client_Connect dialAddr c))))
        = Ok (mkDnsStream st dom)).
Proof.
  intros c. split; [reflexivity|]. split; [reflexivity|]. split.
  - intros err H. unfold Client_Connect. cbn [serverAddr c NewClient].
    now rewrite H.
  - intros conn st conn' H Ho. unfold Client_Connect.
    cbn [serverAddr c NewClient]. rewrite H.
    unfold Client_OpenStream. cbn. now rewrite Ho.
Qed.

(** ** The budget and the length of the name *)

(** X28: the budget does not count the dots between labels.  Under a
    domain of at most 123 characters, a payload of exactly
    [CalculateMaxPayloadSize] bytes gives a question name longer than the
    253 characters of [MaxDomainLength]. *)
Theorem X28_full_budget_name_too_long (p : bytes) (dom : gostring) :
  (length dom <= 123)%nat ->
  Z.of_nat (length p) = CalculateMaxPayloadSize (Z.of_nat (length dom)) ->
  MaxDomainLength
  < Z.of_nat (length (CreateFQDN (EncodeSubdomain p) dom)).
Proof.
  intros Hd Hb.
  assert (Hf : fitsInt (Z.of_nat (length dom)))
    by (unfold fitsInt, MaxDomainLength; lia).
  rewrite CalculateMaxPayloadSize_exact in Hb by assumption.
  unfold MaxDomainLength in *.
  set (A := 253 - Z.of_nat (length dom) - 2) in *.
  assert (HA : 128 <= A) by (subst A; lia).
  rewrite Z.quot_div_nonneg in Hb by lia.
  pose proof (Z.div_mod (A * 5) 8 ltac:(lia)) as Hdm.
  pose proof (Z.mod_pos_bound (A * 5) 8 ltac:(lia)) as Hm.
  assert (Hp : p <> []).
  { intros ->. simpl in Hb.
    assert (1 <= A * 5 / 8) by (apply Z.div_le_lower_bound; lia). lia. }
  rewrite (CreateFQDN_length p dom Hp).
  set (L := base32Len (length p)).
  assert (HL : A - 1 <= Z.of_nat L).
  { subst L. unfold base32Len.
    rewrite Nat2Z.inj_div, Nat2Z.inj_add, Nat2Z.inj_mul. simpl Z.of_nat.
    apply Z.div_le_lower_bound; lia. }
  assert (Hs : (2 <= (L - 1) / 63)%nat)
    by (apply Nat.div_le_lower_bound; lia).
  lia.
Qed.

Lemma X28_witness :
  (length tunnelDomain <= 123)%nat
  /\ Z.of_nat (length (repeat x00 145))
     = CalculateMaxPayloadSize (Z.of_nat (length tunnelDomain))
  /\ length (CreateFQDN (EncodeSubdomain (repeat x00 145)) tunnelDomain)
     = 255%nat
  /\ MaxDomainLength
     < Z.of_nat (length (CreateFQDN (EncodeSubdomain (repeat x00 145))
                           tunnelDomain)).
Proof.
  assert (H1 : (length tunnelDomain <= 123)%nat) by (vm_compute; lia).
  assert (H2 : Z.of_nat (length (repeat x00 145))
               = CalculateMaxPayloadSize (Z.of_nat (length tunnelDomain)))
    by (vm_compute; reflexivity).
  assert (H3 : length (CreateFQDN (EncodeSubdomain (repeat x00 145))
                         tunnelDomain) = 255%nat)
    by (vm_compute; reflexivity).
  exact (conj H1 (conj H2 (conj H3
           (X28_full_budget_name_too_long (repeat x00 145) tunnelDomain
              H1 H2)))).
Defined.
